(** * Weather data processing pipeline (src/Nika.py)

    A shallow embedding of the cleaning pipeline [clean_weather_data], of its
    two local helpers [custom_date_parser] and
    [convert_to_string_and_capitalize], and of the top-5 aggregation of
    [save_data_and_generate_report].

    Conventions of the embedding.
    - A DataFrame is the list of its rows, in index order.  A row is a record
      with one field per column the pipeline touches.
    - A missing cell (NaN / None) of a column is [None]; numeric cells are
      exact rationals ([Qc]), so the rounding error of float64 arithmetic is
      outside the model.
    - Python strings are [string]s of ASCII characters; the character
      classes below are the ASCII restrictions of [str.isspace],
      [str.isupper] and [str.islower].
    - A Python call that may raise returns a [result]: [Ok v] or
      [Raise e].  A [try ... except ValueError] is [catch_ValueError].
    - The pandas, numpy and Python built-ins the source calls ([str.strip],
      [str.title], [round], [pd.to_datetime], [groupby], [transform],
      [fillna], [mean], [dropna], [sort_values], [head]) are embedded from
      their documented behaviour.  Two points of it matter below: [round]
      of a NaN raises [ValueError], and [pd.to_datetime] raises
      [OutOfBoundsDatetime] on a date its [Timestamp] cannot hold; the range
      of [Timestamp] depends on the resolution pandas works with and is a
      parameter of the pipeline. *)

From Stdlib Require Import ZArith QArith Qcanon Qround Ascii String List Bool Lia.
From Stdlib Require Import Permutation Sorted.
From Stdlib Require Import Lqa.
From stdpp Require Import base option list strings numbers sorting.

Open Scope string_scope.
Open Scope list_scope.
Open Scope N_scope.

(** ** Exceptions and results *)

Inductive exn : Type :=
  | ValueError
  | OutOfBoundsDatetime
  | TypeError.

(** [issubclass e ValueError]: pandas declares
    [class OutOfBoundsDatetime(ValueError)]. *)
Definition is_ValueError (e : exn) : bool :=
  match e with
  | ValueError | OutOfBoundsDatetime => true
  | TypeError => false
  end.

Inductive result (A : Type) : Type :=
  | Ok (a : A)
  | Raise (e : exn).
Arguments Ok {A} a.
Arguments Raise {A} e.

Definition rbind {A B} (m : result A) (k : A -> result B) : result B :=
  match m with
  | Ok a => k a
  | Raise e => Raise e
  end.

Notation "'let!' x ':=' m 'in' k" := (rbind m (fun x => k))
  (at level 10, x name, m at level 100, k at level 200).

(** Run [f] on the elements of a list from left to right; the first
    exception ends the run. *)
Fixpoint traverse {A B} (f : A -> result B) (l : list A) : result (list B) :=
  match l with
  | [] => Ok []
  | x :: l' =>
      let! y := f x in
      let! ys := traverse f l' in
      Ok (y :: ys)
  end.

(** ** Characters and strings *)

Module Py.

Definition code (c : ascii) : N := N_of_ascii c.

Definition in_range (lo hi : N) (c : ascii) : bool :=
  ((lo <=? code c) && (code c <=? hi))%N.

(** ASCII whitespace of [str.isspace]: TAB, LF, VT, FF, CR, FS, GS, RS, US
    and SPACE. *)
Definition isspace (c : ascii) : bool :=
  in_range 9 13 c || in_range 28 32 c.

Definition isupper (c : ascii) : bool := in_range 65 90 c.
Definition islower (c : ascii) : bool := in_range 97 122 c.

(** A cased character is a letter. *)
Definition iscased (c : ascii) : bool := isupper c || islower c.

Definition isdigit (c : ascii) : bool := in_range 48 57 c.

Definition upper (c : ascii) : ascii :=
  if islower c then ascii_of_N (code c - 32) else c.

Definition lower (c : ascii) : ascii :=
  if isupper c then ascii_of_N (code c + 32) else c.

Fixpoint lstrip (s : string) : string :=
  match s with
  | "" => ""
  | String c s' => if isspace c then lstrip s' else s
  end.

Fixpoint rstrip (s : string) : string :=
  match s with
  | "" => ""
  | String c s' =>
      match rstrip s' with
      | "" => if isspace c then "" else String c ""
      | t => String c t
      end
  end.

(** [s.strip()] *)
Definition strip (s : string) : string := rstrip (lstrip s).

(** The loop of [str.title]: a character that follows a cased character is
    lowercased, any other character is uppercased (titlecased), and the
    flag becomes whether the character just read is cased. *)
Fixpoint title_from (previous_is_cased : bool) (s : string) : string :=
  match s with
  | "" => ""
  | String c s' =>
      String (if previous_is_cased then lower c else upper c)
             (title_from (iscased c) s')
  end.

(** [s.title()] *)
Definition title (s : string) : string := title_from false s.

(** [str(data)] for a cell that holds a string or is missing: the missing
    value of pandas is the float NaN, whose [str] is ["nan"]. *)
Definition str (data : option string) : string :=
  match data with
  | Some s => s
  | None => "nan"
  end.

End Py.

(** ** Stage 5 helper: [convert_to_string_and_capitalize] *)

Definition convert_to_string_and_capitalize (data : option string) : string :=
  Py.title (Py.strip (Py.str data)).

(** The capitalisation the specification words describe: the first letter
    of each whitespace-separated word uppercased, the remainder of the word
    lowercased.  Named apart from the source's [Py.title], with which it is
    compared. *)
Fixpoint spec_title_from (at_word_start : bool) (s : string) : string :=
  match s with
  | "" => ""
  | String c s' =>
      if Py.isspace c then String c (spec_title_from true s')
      else String (if at_word_start then Py.upper c else Py.lower c)
                  (spec_title_from false s')
  end.

Definition spec_whitespace_title (s : string) : string :=
  spec_title_from true s.

Definition spec_normalize (data : option string) : string :=
  spec_whitespace_title (Py.strip (Py.str data)).

(** ** Stage 3 helper: [custom_date_parser] *)

(** A parsed date.  The formats of the pipeline carry no time of day, so a
    [Timestamp] is the calendar date at midnight.  [NaT] is [None]. *)
Record Timestamp : Type := mkTimestamp { year : N; month : N; day : N }.

Module Strptime.

(** A format string is a sequence of directives [%x] and literal
    characters. *)
Inductive token : Type :=
  | Directive (c : ascii)
  | Literal (c : ascii).

Fixpoint tokenize (fmt : string) : list token :=
  match fmt with
  | "" => []
  | String c r =>
      if Ascii.eqb c "%" then
        match r with
        | "" => [Literal c]
        | String d r' => Directive d :: tokenize r'
        end
      else Literal c :: tokenize r
  end.

Definition charclass : Type := ascii -> bool.

Definition is_char (c : ascii) : charclass := Ascii.eqb c.

(** The regular expressions of the directives, each a list of alternatives
    tried from left to right, each alternative a sequence of character
    classes:
      %d  3[0-1]|[1-2]\d|0[1-9]|[1-9]| [1-9]
      %m  1[0-2]|0[1-9]|[1-9]
      %Y  \d\d\d\d                                          *)
Definition directive_regex (d : ascii) : option (list (list charclass)) :=
  if Ascii.eqb d "d" then
    Some [ [is_char "3"; Py.in_range 48 49];
           [Py.in_range 49 50; Py.isdigit];
           [is_char "0"; Py.in_range 49 57];
           [Py.in_range 49 57];
           [is_char " "; Py.in_range 49 57] ]
  else if Ascii.eqb d "m" then
    Some [ [is_char "1"; Py.in_range 48 50];
           [is_char "0"; Py.in_range 49 57];
           [Py.in_range 49 57] ]
  else if Ascii.eqb d "Y" then
    Some [ [Py.isdigit; Py.isdigit; Py.isdigit; Py.isdigit] ]
  else None.

(** Match one alternative at the head of [s]: the matched text and the
    rest. *)
Fixpoint match_alt (classes : list charclass) (s : string)
  : option (string * string) :=
  match classes with
  | [] => Some ("", s)
  | cl :: classes' =>
      match s with
      | "" => None
      | String c s' =>
          if cl c then
            match match_alt classes' s' with
            | Some (txt, rest) => Some (String c txt, rest)
            | None => None
            end
          else None
      end
  end.

(** [int(txt)] on the text of a group: digits, after an optional blank. *)
Fixpoint int_from (acc : N) (txt : string) : N :=
  match txt with
  | "" => acc
  | String c r =>
      if Py.isdigit c then int_from (10 * acc + (Py.code c - 48))%N r
      else int_from acc r
  end.

Definition int (txt : string) : N := int_from 0%N txt.

(** The fields found so far; a field no directive sets keeps the default of
    [strptime] (1900-01-01). *)
Definition store (d : ascii) (v : N) (acc : Timestamp) : Timestamp :=
  if Ascii.eqb d "d" then mkTimestamp (year acc) (month acc) v
  else if Ascii.eqb d "m" then mkTimestamp (year acc) v (day acc)
  else mkTimestamp v (month acc) (day acc).

Fixpoint first_match {A B} (k : A -> option B) (alts : list A) : option B :=
  match alts with
  | [] => None
  | a :: alts' =>
      match k a with
      | Some b => Some b
      | None => first_match k alts'
      end
  end.

(** [format_regex.match(val)]: a backtracking match of the compiled format
    at the start of [s]; the result is the fields and what is left of
    [s]. *)
Fixpoint re_match (toks : list token) (s : string) (acc : Timestamp)
  : option (Timestamp * string) :=
  match toks with
  | [] => Some (acc, s)
  | Literal c :: toks' =>
      match s with
      | "" => None
      | String c' s' => if Ascii.eqb c c' then re_match toks' s' acc else None
      end
  | Directive d :: toks' =>
      match directive_regex d with
      | None => None
      | Some alts =>
          first_match
            (fun alt =>
               match match_alt alt s with
               | Some (txt, rest) => re_match toks' rest (store d (int txt) acc)
               | None => None
               end)
            alts
      end
  end.

Definition is_leap (y : N) : bool :=
  (((y mod 4 =? 0) && negb (y mod 100 =? 0)) || (y mod 400 =? 0))%N.

Definition days_in_month (y m : N) : N :=
  if (m =? 2)%N then (if is_leap y then 29 else 28)%N
  else if ((m =? 4) || (m =? 6) || (m =? 9) || (m =? 11))%N then 30%N
  else 31%N.

(** A date of the proleptic Gregorian calendar, as [datetime.date] checks
    it. *)
Definition valid_date (t : Timestamp) : bool :=
  ((1 <=? year t) && (year t <=? 9999) &&
   (1 <=? month t) && (month t <=? 12) &&
   (1 <=? day t) && (day t <=? days_in_month (year t) (month t)))%N.

(** Strings that pandas reads as a missing date. *)
Definition nat_strings : list string :=
  ["NaT"; "nat"; "NAT"; "nan"; "NaN"; "NAN"].

Definition default_fields : Timestamp := mkTimestamp 1900 1 1.

End Strptime.

Definition digit_char (k : N) : ascii := ascii_of_N (48 + k).

Definition pad2 (n : N) : string :=
  String (digit_char (n / 10)) (String (digit_char (n mod 10)) "").

Definition pad4 (n : N) : string :=
  String (digit_char (n / 1000))
    (String (digit_char ((n / 100) mod 10))
       (String (digit_char ((n / 10) mod 10))
          (String (digit_char (n mod 10)) ""))).

(** [t.strftime("%Y-%m-%d")] for a four-digit year. *)
Definition isoformat (t : Timestamp) : string :=
  (pad4 (year t) ++ "-" ++ pad2 (month t) ++ "-" ++ pad2 (day t))%string.

(** ** Numeric cells, [mean] and [round] *)

(** The non-missing values of a column ([skipna]). *)
Definition notna (x : list (option Qc)) : list Qc := omap id x.

Definition Qc_sum (l : list Qc) : Qc := foldr Qcplus (Qc_of_Z 0) l.

(** [x.mean()]: the mean of the non-missing values, NaN ([None]) when there
    is none. *)
Definition mean (x : list (option Qc)) : option Qc :=
  match notna x with
  | [] => None
  | vs => Some (Qc_sum vs / Qc_of_Z (Z.of_nat (length vs)))%Qc
  end.

(** [round(q)] of a finite float: the nearest integer, a tie going to the
    even one. *)
Definition round_half_even (q : Qc) : Z :=
  let f := Qfloor q in
  match (q - Qc_of_Z f ?= Q2Qc (1 # 2))%Qc with
  | Lt => f
  | Gt => (f + 1)%Z
  | Eq => if Z.even f then f else (f + 1)%Z
  end.

(** The built-in [round] with one argument returns an [int]; on NaN it
    raises [ValueError] (cannot convert float NaN to integer). *)
Definition py_round (m : option Qc) : result Z :=
  match m with
  | None => Raise ValueError
  | Some q => Ok (round_half_even q)
  end.

(** ** Rows and tables *)

(** A row of the table.  The types of three columns change along the
    pipeline, so they are parameters: [D] for [date] (a string cell in the
    raw table, a parsed date after stage 3), [W] for [weather_condition]
    (a nullable string, a string after stage 5) and [F] for
    [temperature_fahrenheit] ([unit] while the column does not exist). *)
Record row (D W F : Type) : Type := mkRow {
  city : string;
  date : D;
  weather_condition : W;
  temperature_celsius : option Qc;
  humidity_percent : option Qc;
  wind_speed_kph : option Qc;
  temperature_fahrenheit : F
}.
Arguments mkRow {D W F}.
Arguments city {D W F}.
Arguments date {D W F}.
Arguments weather_condition {D W F}.
Arguments temperature_celsius {D W F}.
Arguments humidity_percent {D W F}.
Arguments wind_speed_kph {D W F}.
Arguments temperature_fahrenheit {D W F}.

(** The raw table read from the CSV file. *)
Definition raw_row : Type := row (option string) (option string) unit.
(** The cleaned table. *)
Definition clean_row : Type := row (option Timestamp) string (option Qc).

Inductive numcol : Type := Temperature | Humidity | Wind.

Definition get_col {D W F} (c : numcol) (r : row D W F) : option Qc :=
  match c with
  | Temperature => temperature_celsius r
  | Humidity => humidity_percent r
  | Wind => wind_speed_kph r
  end.

Definition set_col {D W F} (c : numcol) (v : option Qc) (r : row D W F)
  : row D W F :=
  match c with
  | Temperature =>
      mkRow (city r) (date r) (weather_condition r) v (humidity_percent r)
            (wind_speed_kph r) (temperature_fahrenheit r)
  | Humidity =>
      mkRow (city r) (date r) (weather_condition r) (temperature_celsius r) v
            (wind_speed_kph r) (temperature_fahrenheit r)
  | Wind =>
      mkRow (city r) (date r) (weather_condition r) (temperature_celsius r)
            (humidity_percent r) v (temperature_fahrenheit r)
  end.

Definition set_date {D D' W F} (d : D') (r : row D W F) : row D' W F :=
  mkRow (city r) d (weather_condition r) (temperature_celsius r)
        (humidity_percent r) (wind_speed_kph r) (temperature_fahrenheit r).

Definition set_weather_condition {D W W' F} (w : W') (r : row D W F)
  : row D W' F :=
  mkRow (city r) (date r) w (temperature_celsius r)
        (humidity_percent r) (wind_speed_kph r) (temperature_fahrenheit r).

Definition set_temperature_fahrenheit {D W F F'} (f : F') (r : row D W F)
  : row D W F' :=
  mkRow (city r) (date r) (weather_condition r) (temperature_celsius r)
        (humidity_percent r) (wind_speed_kph r) f.

(** ** [groupby], [transform] and [fillna] *)

Fixpoint insert_sorted {A} (le : A -> A -> bool) (x : A) (l : list A)
  : list A :=
  match l with
  | [] => [x]
  | y :: l' => if le x y then x :: y :: l' else y :: insert_sorted le x l'
  end.

(** Insertion sort; equal elements keep their order. *)
Definition isort {A} (le : A -> A -> bool) (l : list A) : list A :=
  foldr (insert_sorted le) [] l.

(** The distinct values of a list, in order of first appearance. *)
Fixpoint unique (l : list string) : list string :=
  match l with
  | [] => []
  | x :: l' => x :: filter (fun y => y <> x) (unique l')
  end.

(** The group keys of [df.groupby('city')]: the distinct cities, sorted
    (the default [sort=True]). *)
Definition group_keys {D W F} (df : list (row D W F)) : list string :=
  isort String.leb (unique (city <$> df)).

(** A Series: the values with their index labels. *)
Definition Series : Type := list (nat * option Qc).

(** [x.fillna(v)] *)
Definition fill (v : Qc) (cell : option Qc) : option Qc :=
  match cell with
  | Some a => Some a
  | None => Some v
  end.

Definition fillna (x : Series) (v : Qc) : Series :=
  (fun iv => (iv.1, fill v iv.2)) <$> x.

(** [lambda x: x.fillna(round(x.mean()))] *)
Definition fill_with_rounded_mean (x : Series) : result Series :=
  let! m := py_round (mean (snd <$> x)) in
  Ok (fillna x (Qc_of_Z m)).

(** The value at index label [i], if the label occurs. *)
Fixpoint lookup_index (i : nat) (x : Series) : option (option Qc) :=
  match x with
  | [] => None
  | iv :: x' => if Nat.eqb iv.1 i then Some iv.2 else lookup_index i x'
  end.

(** The column [c] of the rows of city [k]. *)
Definition group_values {D W F} (c : numcol) (k : string)
    (df : list (row D W F)) : list (option Qc) :=
  get_col c <$> filter (fun r => city r = k) df.

(** [df.groupby('city')[c].transform(func)]: [func] is called once on the
    column of each group, in key order; an exception of [func] leaves
    [transform]; the pieces are put together and aligned on the index of
    [df]. *)
Definition transform {D W F} (c : numcol) (func : Series -> result Series)
    (df : list (row D W F)) : result (list (option Qc)) :=
  let indexed := imap (fun i r => (i, r)) df in
  let group k :=
    (fun ir => (ir.1, get_col c ir.2)) <$>
      filter (fun ir => city ir.2 = k) indexed in
  let! pieces := traverse (fun k => func (group k)) (group_keys df) in
  Ok ((fun i => default None (lookup_index i (concat pieces))) <$>
        seq 0%nat (length df)).

(** [df[c] = values] *)
Definition assign {D W F} (c : numcol) (values : list (option Qc))
    (df : list (row D W F)) : list (row D W F) :=
  zip_with (set_col c) values df.

(** Stage 1, for one column:
    [df[c] = df.groupby('city')[c].transform(lambda x: x.fillna(round(x.mean())))] *)
Definition impute {D W F} (c : numcol) (df : list (row D W F))
  : result (list (row D W F)) :=
  let! values := transform c fill_with_rounded_mean df in
  Ok (assign c values df).

(** Stage 2: [df.dropna(subset=['date', 'weather_condition'])] *)
Definition dropna {D W F} (df : list (row (option D) (option W) F))
  : list (row (option D) (option W) F) :=
  filter (fun r => is_Some (date r) /\ is_Some (weather_condition r)) df.

(** Stage 4: [df['temperature_celsius'] * 9 / 5 + 32]; NaN stays NaN. *)
Definition fahrenheit (celsius : option Qc) : option Qc :=
  match celsius with
  | Some c => Some (c * Qc_of_Z 9 / Qc_of_Z 5 + Qc_of_Z 32)%Qc
  | None => None
  end.

(** ** The top-5 aggregation of [save_data_and_generate_report] *)

(** [df.groupby('city')['temperature_celsius'].mean()] *)
Definition groupby_mean {D W F} (keys : list string) (df : list (row D W F))
  : list (string * option Qc) :=
  (fun k => (k, mean (temperature_celsius <$>
                        filter (fun r => city r = k) df))) <$> keys.

Definition Qc_leb (a b : Qc) : bool := Qle_bool a b.

Definition non_nan (l : list (string * option Qc)) : list (string * Qc) :=
  omap (fun kv => match kv.2 with Some v => Some (kv.1, v) | None => None end) l.

Definition nan (l : list (string * option Qc)) : list (string * option Qc) :=
  filter (fun kv => kv.2 = None) l.

(** [.sort_values(ascending=False)]: the non-missing entries are reversed,
    sorted in ascending order and reversed again; the missing ones come
    last.  The sort is numpy's default, which on a short array is an
    insertion sort. *)
Definition sort_values_descending (l : list (string * option Qc))
  : list (string * option Qc) :=
  ((fun kv => (kv.1, Some kv.2)) <$>
     reverse (isort (fun a b => Qc_leb a.2 b.2) (reverse (non_nan l))))
  ++ nan l.

(** [avg_temp]: the entries the report lists, in order. *)
Definition avg_temp {D W F} (df : list (row D W F))
  : list (string * option Qc) :=
  take 5%nat (sort_values_descending (groupby_mean (group_keys df) df)).

(** The aggregation the specification words describe: groups in order of
    first appearance of the city, a stable descending sort, the first 5. *)
Definition spec_avg_temp {D W F} (df : list (row D W F))
  : list (string * option Qc) :=
  take 5%nat
    (sort_values_descending (groupby_mean (unique (city <$> df)) df)).

Definition catch_ValueError {A} (body : result A) (handler : result A)
  : result A :=
  match body with
  | Ok v => Ok v
  | Raise e => if is_ValueError e then handler else Raise e
  end.

Section Pipeline.

(** The range of dates a [Timestamp] of the installed pandas can hold: with
    nanosecond resolution 1677-09-21 .. 2262-04-11, wider with a coarser
    resolution.  A date out of this range makes [pd.to_datetime] raise
    [OutOfBoundsDatetime]. *)
Variable Timestamp_in_bounds : Timestamp -> bool.

(** [pd.to_datetime(arg, format=format)] on a string. *)
Definition to_datetime (arg : string) (format : string)
  : result (option Timestamp) :=
  if bool_decide (arg = "") || bool_decide (arg ∈ Strptime.nat_strings)
  then Ok None
  else
    match Strptime.re_match (Strptime.tokenize format) arg
                            Strptime.default_fields with
    | None => Raise ValueError          (* time data does not match format *)
    | Some (t, rest) =>
        if negb (bool_decide (rest = "")) then
          Raise ValueError              (* unconverted data remains *)
        else if negb (Strptime.valid_date t) then
          Raise ValueError              (* day is out of range for month *)
        else if negb (Timestamp_in_bounds t) then
          Raise OutOfBoundsDatetime
        else Ok (Some t)
    end.

Definition date_formats : list string :=
  ["%d-%m-%Y"; "%d.%m.%Y"; "%m/%d/%Y"; "%Y-%m-%d"; "%d/%m/%Y";
   "%m-%d-%Y"; "%m.%d.%Y"; "%Y.%m.%d"; "%Y/%m/%d"].

(** The [for fmt in (...)] loop: [return] on the first format that does not
    raise, [continue] on [ValueError], [pd.NaT] after the loop. *)
Fixpoint try_formats (fmts : list string) (date : string)
  : result (option Timestamp) :=
  match fmts with
  | [] => Ok None
  | fmt :: fmts' =>
      catch_ValueError (to_datetime date fmt) (try_formats fmts' date)
  end.

Definition custom_date_parser (date : string) : result (option Timestamp) :=
  try_formats date_formats date.

(** Stage 3: [df['date'].apply(custom_date_parser)].  A missing cell does
    not reach the parser (stage 2 dropped it); [pd.to_datetime] of NaN is
    NaT. *)
Definition parse_date_cell (cell : option string)
  : result (option Timestamp) :=
  match cell with
  | Some s => custom_date_parser s
  | None => Ok None
  end.

Definition apply_date_parser {W F} (df : list (row (option string) W F))
  : result (list (row (option Timestamp) W F)) :=
  traverse
    (fun r => let! d := parse_date_cell (date r) in Ok (set_date d r)) df.

Definition clean_weather_data (df : list raw_row)
  : result (list clean_row) :=
  (* 1. fill missing values with the rounded mean of the city *)
  let! df := impute Temperature df in
  let! df := impute Humidity df in
  let! df := impute Wind df in
  (* 2. drop rows where date or weather_condition is missing *)
  let df := dropna df in
  (* 3. parse the dates *)
  let! df := apply_date_parser df in
  (* 4. temperature in Fahrenheit *)
  let df :=
    (fun r => set_temperature_fahrenheit
                (fahrenheit (temperature_celsius r)) r) <$> df in
  (* 5. standardise weather_condition *)
  let df :=
    (fun r => set_weather_condition
                (convert_to_string_and_capitalize (weather_condition r)) r)
      <$> df in
  (* 6. remove the rows whose weather_condition is 'Unknown' *)
  Ok (filter (fun r => weather_condition r <> "Unknown") df).

End Pipeline.

(** The range of a [Timestamp] with nanosecond resolution:
    1677-09-21 .. 2262-04-11. *)
Definition Timestamp_leb (a b : Timestamp) : bool :=
  (year a <? year b) ||
  ((year a =? year b) &&
   ((month a <? month b) || ((month a =? month b) && (day a <=? day b)))).

Definition ns_bounds (t : Timestamp) : bool :=
  Timestamp_leb (mkTimestamp 1677 9 21) t &&
  Timestamp_leb t (mkTimestamp 2262 4 11).

(** ** Predicates used to state the properties *)

Fixpoint all_space (s : string) : bool :=
  match s with
  | "" => true
  | String c s' => Py.isspace c && all_space s'
  end.

Definition starts_with_space (s : string) : bool :=
  match s with
  | "" => false
  | String c _ => Py.isspace c
  end.

Fixpoint ends_with_space (s : string) : bool :=
  match s with
  | "" => false
  | String c "" => Py.isspace c
  | String _ s' => ends_with_space s'
  end.

(** Whether the character at position [i] of [s] follows a cased one. *)
Definition follows_cased (s : string) (i : nat) : bool :=
  match i with
  | O => false
  | S j => match String.get j s with
           | Some p => Py.iscased p
           | None => false
           end
  end.

(** The order of a descending Series of means: a larger mean comes first
    and a missing mean comes last. *)
Definition mean_ge (a b : option Qc) : Prop :=
  match a, b with
  | Some x, Some y => (y <= x)%Qc
  | _, None => True
  | None, Some _ => False
  end.

Definition descending (l : list (string * option Qc)) : Prop :=
  StronglySorted (fun a b => mean_ge a.2 b.2) l.

(** [s.lower()] *)
Fixpoint casefold (s : string) : string :=
  match s with
  | "" => ""
  | String c s' => String (Py.lower c) (casefold s')
  end.

(** A case and whitespace variant of "unknown": the word in any mix of
    cases, between any whitespace. *)
Definition unknown_variant (w : string) : Prop :=
  exists l u r, w = (l ++ u ++ r)%string /\
                all_space l = true /\ all_space r = true /\
                casefold u = "unknown".

(** The call raised an exception. *)
Definition raises {A} (r : result A) : Prop := exists e, r = Raise e.

(** Imputation succeeds exactly when every city has a value in the
    column: [round] raises on the NaN mean of a group without values. *)
Definition every_group_has_value {D W F} (c : numcol)
    (df : list (row D W F)) : Prop :=
  Forall (fun r => is_Some (mean (group_values c (city r) df))) df.

(** The rows of the three imputations keep their city, date and
    weather_condition. *)
Definition same_labels {D W F} (r r' : row D W F) : Prop :=
  city r' = city r /\ date r' = date r /\
  weather_condition r' = weather_condition r.

(** Stage 1 as a whole. *)
Definition impute_all {D W F} (df : list (row D W F))
  : result (list (row D W F)) :=
  let! df := impute Temperature df in
  let! df := impute Humidity df in
  impute Wind df.

(** The row a raw row becomes on its way through stages 3 to 5. *)
Definition cleaned_from (in_bounds : Timestamp -> bool)
    (r : raw_row) (r' : clean_row) : Prop :=
  city r' = city r /\
  parse_date_cell in_bounds (date r) = Ok (date r') /\
  weather_condition r' =
    convert_to_string_and_capitalize (weather_condition r) /\
  temperature_fahrenheit r' = fahrenheit (temperature_celsius r').

(** ** Tables used as examples *)

Definition reading (c : string) (t : Z) : raw_row :=
  mkRow c (Some "2024-05-01") (Some "sunny") (Some (Qc_of_Z t)) None None tt.

Definition six_cities_table : list raw_row :=
  [ reading "Kano" 27; reading "Ibadan" 10; reading "Enugu" 31;
    reading "Lagos" 25; reading "Kano" 29; reading "Jos" 18;
    reading "Abuja" 20; reading "Enugu" 29 ].

Definition tie_table : list raw_row := [ reading "B" 10; reading "A" 10 ].

Definition half_mean_table : list raw_row :=
  [ mkRow "X" (Some "2020-01-01") (Some "rain") None None None tt;
    mkRow "X" (Some "2020-01-02") (Some "rain") (Some (Qc_of_Z 15)) None None tt;
    mkRow "X" (Some "2020-01-03") (Some "rain") (Some (Qc_of_Z 16)) None None tt ].

Definition half_mean_imputed : list raw_row :=
  [ mkRow "X" (Some "2020-01-01") (Some "rain") (Some (Qc_of_Z 16)) None None tt;
    mkRow "X" (Some "2020-01-02") (Some "rain") (Some (Qc_of_Z 15)) None None tt;
    mkRow "X" (Some "2020-01-03") (Some "rain") (Some (Qc_of_Z 16)) None None tt ].

Definition unparsed_date_table : list raw_row :=
  [ mkRow "Lagos" (Some "last friday") (Some " sunny")
          (Some (Qc_of_Z 31)) (Some (Qc_of_Z 70)) None tt;
    mkRow "Lagos" (Some "2024-05-01") (Some "rain")
          None (Some (Qc_of_Z 80)) (Some (Qc_of_Z 12)) tt ].

(** [t.strftime] with the three field orders of the formats, [sep] between
    the fields, zero-padded. *)
Definition strftime_dmy (sep : ascii) (t : Timestamp) : string :=
  (pad2 (day t) ++ String sep (pad2 (month t) ++ String sep (pad4 (year t))))%string.

Definition strftime_mdy (sep : ascii) (t : Timestamp) : string :=
  (pad2 (month t) ++ String sep (pad2 (day t) ++ String sep (pad4 (year t))))%string.

Definition strftime_ymd (sep : ascii) (t : Timestamp) : string :=
  (pad4 (year t) ++ String sep (pad2 (month t) ++ String sep (pad2 (day t))))%string.

(** The date with day and month exchanged. *)
Definition swap_day_month (t : Timestamp) : Timestamp :=
  mkTimestamp (year t) (day t) (month t).

Definition is_separator (sep : ascii) : Prop :=
  sep = "-"%char \/ sep = "."%char \/ sep = "/"%char.

Definition starts_with_digit (s : string) : bool :=
  match s with
  | "" => false
  | String c _ => Py.isdigit c
  end.

(** [.sort_values(ascending=True)]: the non-missing entries in ascending
    order, the missing ones last. *)
Definition sort_values_ascending (l : list (string * option Qc))
  : list (string * option Qc) :=
  ((fun kv => (kv.1, Some kv.2)) <$>
     isort (fun a b => Qc_leb a.2 b.2) (non_nan l))
  ++ nan l.

(** The series [create_avg_temperature_chart] plots, one bar per entry:
    [df.groupby('city')['temperature_celsius'].mean().sort_values(ascending=True)] *)
Definition chart_avg_temp {D W F} (df : list (row D W F))
  : list (string * option Qc) :=
  sort_values_ascending (groupby_mean (group_keys df) df).





Definition unparsed_date_cleaned : list clean_row :=
  [ mkRow "Lagos" None "Sunny"
          (Some (Qc_of_Z 31)) (Some (Qc_of_Z 70)) (Some (Qc_of_Z 12))
          (fahrenheit (Some (Qc_of_Z 31)));
    mkRow "Lagos" (Some (mkTimestamp 2024 5 1)) "Rain"
          (Some (Qc_of_Z 31)) (Some (Qc_of_Z 80)) (Some (Qc_of_Z 12))
          (fahrenheit (Some (Qc_of_Z 31))) ].



(** * Properties *)

(** ** Character classes *)

Lemma code_ascii_of_N (n : N) : n < 256 -> Py.code (ascii_of_N n) = n.
Proof. intros H. unfold Py.code. apply N_ascii_embedding. exact H. Qed.

Lemma code_lt_256 (c : ascii) : Py.code c < 256.
Proof. unfold Py.code. apply N_ascii_bounded. Qed.

Lemma in_range_spec lo hi c :
  Py.in_range lo hi c = true <-> lo <= Py.code c <= hi.
Proof.
  unfold Py.in_range. rewrite andb_true_iff, !N.leb_le. reflexivity.
Qed.

Lemma upper_not_cased c : Py.iscased c = false -> Py.upper c = c.
Proof.
  unfold Py.iscased, Py.upper. intros H.
  apply orb_false_iff in H as [_ ->]. reflexivity.
Qed.

Lemma lower_not_cased c : Py.iscased c = false -> Py.lower c = c.
Proof.
  unfold Py.iscased, Py.lower. intros H.
  apply orb_false_iff in H as [-> _]. reflexivity.
Qed.

(** The result of [upper] on a letter is the upper-case letter: its code is
    in [A-Z]; likewise for [lower]. *)
Lemma upper_cased c : Py.iscased c = true -> Py.isupper (Py.upper c) = true.
Proof.
  unfold Py.iscased, Py.upper. intros H.
  destruct (Py.islower c) eqn:Hl.
  - apply in_range_spec in Hl. apply in_range_spec.
    rewrite code_ascii_of_N by lia. lia.
  - rewrite orb_false_r in H. exact H.
Qed.

Lemma lower_cased c : Py.iscased c = true -> Py.islower (Py.lower c) = true.
Proof.
  unfold Py.iscased, Py.lower. intros H.
  destruct (Py.isupper c) eqn:Hu.
  - apply in_range_spec in Hu. apply in_range_spec.
    rewrite code_ascii_of_N by lia. lia.
  - exact H.
Qed.

(** ** [strip] *)

Lemma append_cons (c : ascii) (a b : string) :
  (String c a ++ b)%string = String c (a ++ b)%string.
Proof. reflexivity. Qed.

Lemma append_nil_l (b : string) : ("" ++ b)%string = b.
Proof. reflexivity. Qed.

Lemma lstrip_spec s :
  exists l, s = (l ++ Py.lstrip s)%string /\ all_space l = true /\
            starts_with_space (Py.lstrip s) = false.
Proof.
  induction s as [|c s IH]; simpl.
  - exists "". auto.
  - destruct (Py.isspace c) eqn:Hc.
    + destruct IH as (l & Hs & Hl & Hst).
      exists (String c l). rewrite append_cons. simpl. rewrite Hc, Hl.
      split; [congruence|auto].
    + exists "". rewrite append_nil_l. simpl. auto.
Qed.

Lemma rstrip_spec s :
  exists r, s = (Py.rstrip s ++ r)%string /\ all_space r = true /\
            ends_with_space (Py.rstrip s) = false.
Proof.
  induction s as [|c s IH]; simpl.
  - exists "". auto.
  - destruct IH as (r & Hs & Hr & He).
    destruct (Py.rstrip s) as [|c' t] eqn:Ht.
    + rewrite append_nil_l in Hs. destruct (Py.isspace c) eqn:Hc.
      * exists (String c r). rewrite append_nil_l. simpl.
        rewrite Hc, Hr. subst s. auto.
      * exists r. rewrite append_cons, append_nil_l. simpl.
        subst s. rewrite Hc. auto.
    + exists r. rewrite append_cons. split; [congruence|].
      split; [exact Hr|]. exact He.
Qed.

Lemma rstrip_starts s :
  starts_with_space s = false -> starts_with_space (Py.rstrip s) = false.
Proof.
  destruct s as [|c s]; simpl; [reflexivity|].
  intros Hc. destruct (Py.rstrip s); [rewrite Hc|]; simpl; auto.
Qed.

Lemma append_assoc (a b c : string) :
  ((a ++ b) ++ c = a ++ (b ++ c))%string.
Proof.
  induction a; [reflexivity|]. rewrite !append_cons. congruence.
Qed.

Lemma strip_spec s :
  exists l r, s = (l ++ Py.strip s ++ r)%string /\
              all_space l = true /\ all_space r = true /\
              starts_with_space (Py.strip s) = false /\
              ends_with_space (Py.strip s) = false.
Proof.
  destruct (lstrip_spec s) as (l & Hs & Hl & Hst).
  destruct (rstrip_spec (Py.lstrip s)) as (r & Hs' & Hr & Hen).
  exists l, r. unfold Py.strip. repeat split; auto.
  - rewrite <- Hs'. exact Hs.
  - apply rstrip_starts. exact Hst.
Qed.

(** ** [title] *)

Lemma title_from_length p s :
  String.length (Py.title_from p s) = String.length s.
Proof. revert p. induction s; intros; simpl; auto. Qed.

Lemma title_from_get s : forall p i c,
  String.get i s = Some c ->
  String.get i (Py.title_from p s) =
    Some (if match i with O => p | S _ => follows_cased s i end
          then Py.lower c else Py.upper c).
Proof.
  induction s as [|a s IH]; intros p i c H; [destruct i; discriminate|].
  destruct i as [|i]; simpl in *.
  - injection H as ->. reflexivity.
  - rewrite (IH _ _ _ H). destruct i as [|i]; simpl; reflexivity.
Qed.

Lemma title_get s i c :
  String.get i s = Some c ->
  String.get i (Py.title s) =
    Some (if follows_cased s i then Py.lower c else Py.upper c).
Proof.
  intros H. unfold Py.title. rewrite (title_from_get _ _ _ _ H).
  destruct i; reflexivity.
Qed.

(** ** The category normaliser *)

(** C8, as amended: [convert_to_string_and_capitalize] returns the string
    conversion of the value, stripped of leading and trailing whitespace,
    with the first letter of each maximal run of letters uppercased and the
    other letters of the run lowercased; a character that is not a letter is
    unchanged and ends the run (whitespace or not).  ["  rain "] becomes
    ["Rain"] and a missing value becomes ["Nan"]. *)
Theorem convert_to_string_and_capitalize_letter_runs
    (data : option string) (i : nat) (c : ascii) :
  String.get i (Py.strip (Py.str data)) = Some c ->
  let t := Py.strip (Py.str data) in
  (exists l r, Py.str data = (l ++ t ++ r)%string /\
               all_space l = true /\ all_space r = true /\
               starts_with_space t = false /\ ends_with_space t = false) /\
  String.length (convert_to_string_and_capitalize data) = String.length t /\
  String.get i (convert_to_string_and_capitalize data) =
    Some (if Py.iscased c
          then (if follows_cased t i then Py.lower c else Py.upper c)
          else c) /\
  (Py.iscased c = true ->
   if follows_cased t i then Py.islower (Py.lower c) = true
   else Py.isupper (Py.upper c) = true) /\
  convert_to_string_and_capitalize (Some "  rain ") = "Rain" /\
  convert_to_string_and_capitalize None = "Nan".
Proof.
  intros H t. subst t. split; [apply strip_spec|].
  split; [apply title_from_length|].
  split; [|split; [|split; reflexivity]].
  - unfold convert_to_string_and_capitalize.
    rewrite (title_get _ _ _ H).
    destruct (Py.iscased c) eqn:Hc; [reflexivity|].
    rewrite (upper_not_cased _ Hc), (lower_not_cased _ Hc).
    destruct (follows_cased _ i); reflexivity.
  - intros Hc. destruct (follows_cased _ i).
    + apply lower_cased, Hc.
    + apply upper_cased, Hc.
Qed.

Lemma convert_to_string_and_capitalize_letter_runs_witness :
  String.get 7 (convert_to_string_and_capitalize (Some " partly-cloudy "))
  = Some "C"%char.
Proof.
  pose proof (convert_to_string_and_capitalize_letter_runs
                (Some " partly-cloudy ") 7 "c"%char eq_refl) as H.
  exact (proj1 (proj2 (proj2 H))).
Defined.

(** C8, as stated, fails: a hyphen is not whitespace, yet the letter after
    it is uppercased. *)
Lemma convert_to_string_and_capitalize_not_whitespace_words :
  convert_to_string_and_capitalize (Some "partly-cloudy") = "Partly-Cloudy" /\
  spec_normalize (Some "partly-cloudy") = "Partly-cloudy" /\
  convert_to_string_and_capitalize (Some "partly-cloudy")
    <> spec_normalize (Some "partly-cloudy").
Proof. repeat split. discriminate. Qed.

(** ** The date parser *)

Lemma to_datetime_raises_ValueError in_bounds arg format e :
  to_datetime in_bounds arg format = Raise e -> is_ValueError e = true.
Proof.
  unfold to_datetime.
  destruct (_ || _); [discriminate|].
  destruct (Strptime.re_match _ _ _) as [[t rest]|];
    [|intros [= <-]; reflexivity].
  destruct (negb (bool_decide _)); [intros [= <-]; reflexivity|].
  destruct (negb (Strptime.valid_date t)); [intros [= <-]; reflexivity|].
  destruct (negb (in_bounds t)); [|discriminate].
  intros [= <-]. reflexivity.
Qed.

(** The loop returns what the first format that does not raise returns, and
    NaT when every format raises. *)
Lemma try_formats_first in_bounds fmts date :
  (exists pre fmt post v,
      fmts = pre ++ fmt :: post /\
      Forall (fun f => raises (to_datetime in_bounds date f)) pre /\
      to_datetime in_bounds date fmt = Ok v /\
      try_formats in_bounds fmts date = Ok v) \/
  (Forall (fun f => raises (to_datetime in_bounds date f)) fmts /\
   try_formats in_bounds fmts date = Ok None).
Proof.
  induction fmts as [|fmt fmts IH]; simpl.
  - right. split; [constructor|reflexivity].
  - destruct (to_datetime in_bounds date fmt) as [v|e] eqn:Hd; simpl.
    + left. exists [], fmt, fmts, v. repeat split; auto.
    + rewrite (to_datetime_raises_ValueError _ _ _ _ Hd).
      destruct IH as [(pre & f & post & v & -> & Hpre & Hf & Ht)|[Hall Ht]].
      * left. exists (fmt :: pre), f, post, v. repeat split; auto.
        constructor; [exists e; exact Hd|exact Hpre].
      * right. split; [|exact Ht].
        constructor; [exists e; exact Hd|exact Hall].
Qed.

Lemma try_formats_returns in_bounds fmts date :
  exists v, try_formats in_bounds fmts date = Ok v.
Proof.
  destruct (try_formats_first in_bounds fmts date)
    as [(_ & _ & _ & v & _ & _ & _ & H)|[_ H]]; eauto.
Qed.

(** C4: the parser tries, in this order, day-month-year with dashes,
    day.month.year, month/day/year, year-month-day, day/month/year,
    month-day-year, month.day.year, year.month.day and year/month/day, and
    returns the result of the first format that parses; "01/02/2020" is read
    month first: 2 January 2020. *)
Theorem custom_date_parser_format_order
    (in_bounds : Timestamp -> bool) (date : string) :
  in_bounds (mkTimestamp 2020 1 2) = true ->
  let D := Strptime.Directive in
  let L := Strptime.Literal in
  map Strptime.tokenize date_formats =
    [ [D "d"; L "-"; D "m"; L "-"; D "Y"];
      [D "d"; L "."; D "m"; L "."; D "Y"];
      [D "m"; L "/"; D "d"; L "/"; D "Y"];
      [D "Y"; L "-"; D "m"; L "-"; D "d"];
      [D "d"; L "/"; D "m"; L "/"; D "Y"];
      [D "m"; L "-"; D "d"; L "-"; D "Y"];
      [D "m"; L "."; D "d"; L "."; D "Y"];
      [D "Y"; L "."; D "m"; L "."; D "d"];
      [D "Y"; L "/"; D "m"; L "/"; D "d"] ]%char /\
  ((exists pre fmt post v,
       date_formats = pre ++ fmt :: post /\
       Forall (fun f => raises (to_datetime in_bounds date f)) pre /\
       to_datetime in_bounds date fmt = Ok v /\
       custom_date_parser in_bounds date = Ok v) \/
   (Forall (fun f => raises (to_datetime in_bounds date f)) date_formats /\
    custom_date_parser in_bounds date = Ok None)) /\
  custom_date_parser in_bounds "01/02/2020" = Ok (Some (mkTimestamp 2020 1 2)).
Proof.
  intros Hb D L. split; [reflexivity|]. split.
  - apply try_formats_first.
  - unfold custom_date_parser, date_formats, try_formats.
    assert (H1 : to_datetime in_bounds "01/02/2020" "%d-%m-%Y"
                 = Raise ValueError) by reflexivity.
    assert (H2 : to_datetime in_bounds "01/02/2020" "%d.%m.%Y"
                 = Raise ValueError) by reflexivity.
    assert (H3 : to_datetime in_bounds "01/02/2020" "%m/%d/%Y"
                 = Ok (Some (mkTimestamp 2020 1 2))).
    { unfold to_datetime. vm_compute Strptime.re_match.
      cbn. rewrite Hb. reflexivity. }
    rewrite H1, H2, H3. reflexivity.
Qed.

(** C6: on every string the parser returns; every exception of
    [pd.to_datetime] is a [ValueError], which the loop catches; when no
    format parses the result is NaT. *)
Theorem custom_date_parser_never_raises
    (in_bounds : Timestamp -> bool) (date : string) :
  (exists v, custom_date_parser in_bounds date = Ok v) /\
  (forall fmt e, to_datetime in_bounds date fmt = Raise e ->
                 is_ValueError e = true) /\
  (Forall (fun f => raises (to_datetime in_bounds date f)) date_formats ->
   custom_date_parser in_bounds date = Ok None).
Proof.
  split; [apply try_formats_returns|]. split.
  - intros fmt e. apply to_datetime_raises_ValueError.
  - intros Hall.
    destruct (try_formats_first in_bounds date_formats date)
      as [(pre & f & post & v & Heq & _ & Hf & _)|[_ H]]; [|exact H].
    exfalso. rewrite Heq in Hall.
    apply Forall_app in Hall as [_ Hall].
    inversion Hall as [|x l [e He] Hl]. congruence.
Qed.

Lemma digit_char_code k : k < 10 -> Py.code (digit_char k) = 48 + k.
Proof. intros H. unfold digit_char. apply code_ascii_of_N. lia. Qed.

Lemma isdigit_digit_char k : k < 10 -> Py.isdigit (digit_char k) = true.
Proof.
  intros H. unfold Py.isdigit. apply in_range_spec.
  rewrite digit_char_code by exact H. lia.
Qed.

Lemma eqb_not_digit sep c :
  Py.isdigit c = true -> Py.isdigit sep = false -> Ascii.eqb sep c = false.
Proof.
  intros Hc Hs. apply Ascii.eqb_neq. intros ->. congruence.
Qed.

Lemma first_match_None {A B} (k : A -> option B) alts :
  Forall (fun a => k a = None) alts -> Strptime.first_match k alts = None.
Proof.
  induction 1 as [|a alts Ha _ IH]; simpl; [reflexivity|].
  rewrite Ha. exact IH.
Qed.

Lemma re_match_directive d alts toks s acc :
  Strptime.directive_regex d = Some alts ->
  Strptime.re_match (Strptime.Directive d :: toks) s acc =
  Strptime.first_match
    (fun alt =>
       match Strptime.match_alt alt s with
       | Some (txt, rest) =>
           Strptime.re_match toks rest (Strptime.store d (Strptime.int txt) acc)
       | None => None
       end) alts.
Proof. intros H. cbn [Strptime.re_match]. rewrite H. reflexivity. Qed.

(** An alternative of one or two characters, read at the head of three
    digits, leaves a digit where the format wants a separator. *)
Lemma short_alt_then_separator (alt : list Strptime.charclass)
    (sep c1 c2 c3 : ascii) toks rest (k : string -> Timestamp) :
  (length alt = 1 \/ length alt = 2)%nat ->
  Py.isdigit sep = false ->
  Py.isdigit c2 = true -> Py.isdigit c3 = true ->
  match Strptime.match_alt alt (String c1 (String c2 (String c3 rest))) with
  | Some (txt, rest') =>
      Strptime.re_match (Strptime.Literal sep :: toks) rest' (k txt)
  | None => None
  end = None.
Proof.
  intros Hlen Hs H2 H3.
  pose proof (eqb_not_digit _ _ H2 Hs) as E2.
  pose proof (eqb_not_digit _ _ H3 Hs) as E3.
  destruct alt as [|a [|b [|? ?]]]; simpl in Hlen;
    try (exfalso; lia).
  - cbn [Strptime.match_alt]. destruct (a c1); [|reflexivity].
    cbn [Strptime.re_match]. rewrite E2. reflexivity.
  - cbn [Strptime.match_alt]. destruct (a c1); [|reflexivity].
    destruct (b c2); [|reflexivity].
    cbn [Strptime.re_match]. rewrite E3. reflexivity.
Qed.

Lemma day_first_fails (d sep c1 c2 c3 : ascii) toks rest acc :
  d = "d"%char \/ d = "m"%char ->
  Py.isdigit sep = false ->
  Py.isdigit c2 = true -> Py.isdigit c3 = true ->
  Strptime.re_match (Strptime.Directive d :: Strptime.Literal sep :: toks)
                    (String c1 (String c2 (String c3 rest))) acc = None.
Proof.
  intros Hd Hs H2 H3.
  destruct Hd as [-> | ->].
  - erewrite re_match_directive by reflexivity.
    apply first_match_None.
    repeat constructor;
      apply (short_alt_then_separator _ _ _ _ _ _ _
               (fun txt => Strptime.store _ (Strptime.int txt) acc));
      simpl; auto.
  - erewrite re_match_directive by reflexivity.
    apply first_match_None.
    repeat constructor;
      apply (short_alt_then_separator _ _ _ _ _ _ _
               (fun txt => Strptime.store _ (Strptime.int txt) acc));
      simpl; auto.
Qed.


Lemma div_div_10 y a b : b = 10 * a -> a <> 0 -> y / b = (y / a) / 10.
Proof. intros -> Ha. rewrite N.Div0.div_div. f_equal. lia. Qed.

Lemma pad4_value y :
  10 * (10 * (10 * (10 * 0 + y / 1000) + (y / 100) mod 10) + (y / 10) mod 10)
  + y mod 10 = y.
Proof.
  rewrite (div_div_10 y 100 1000) by lia.
  rewrite (div_div_10 y 10 100) by lia.
  pose proof (N.div_mod y 10). pose proof (N.div_mod (y / 10) 10).
  pose proof (N.div_mod (y / 10 / 10) 10). lia.
Qed.

Lemma digit_value k : k < 10 -> Py.code (digit_char k) - 48 = k.
Proof. intros H. rewrite digit_char_code by exact H. lia. Qed.

(** [%Y] reads the four digits of a year below 10000. *)
Lemma re_match_year y toks rest acc :
  y < 10000 ->
  Strptime.re_match (Strptime.Directive "Y" :: toks)
                    (pad4 y ++ rest)%string acc =
  Strptime.re_match toks rest (Strptime.store "Y" y acc).
Proof.
  intros Hy.
  assert (H1 : y / 1000 < 10) by (apply N.Div0.div_lt_upper_bound; lia).
  assert (H2 : (y / 100) mod 10 < 10) by (apply N.mod_lt; lia).
  assert (H3 : (y / 10) mod 10 < 10) by (apply N.mod_lt; lia).
  assert (H4 : y mod 10 < 10) by (apply N.mod_lt; lia).
  erewrite re_match_directive by reflexivity.
  unfold pad4. rewrite !append_cons, append_nil_l.
  cbn [Strptime.first_match Strptime.match_alt].
  rewrite !isdigit_digit_char by assumption.
  replace (Strptime.int _) with y; [destruct (Strptime.re_match _ _ _); reflexivity|].
  unfold Strptime.int. cbn [Strptime.int_from].
  rewrite !isdigit_digit_char by assumption.
  rewrite !digit_value by assumption.
  symmetry. apply pad4_value.
Qed.

Ltac small_N m :=
  destruct m as [|m]; [try lia|];
  destruct m as [m|m|];
    try (destruct m as [m|m|];
         try (destruct m as [m|m|];
              try (destruct m as [m|m|];
                   try (destruct m as [m|m|]))));
  try lia.

(** [%m] followed by a dash reads a zero-padded month. *)
Lemma re_match_month m toks rest acc :
  1 <= m <= 12 ->
  Strptime.re_match (Strptime.Directive "m" :: Strptime.Literal "-" :: toks)
                    (pad2 m ++ String "-" rest)%string acc =
  Strptime.re_match toks rest (Strptime.store "m" m acc).
Proof.
  intros Hm.
  erewrite re_match_directive by reflexivity.
  cbn [Strptime.re_match].
  generalize (Strptime.re_match toks). intros K.
  small_N m; vm_compute; destruct (K rest _); reflexivity.
Qed.

(** [%d] at the end of the format reads a zero-padded day. *)
Lemma re_match_day d acc :
  1 <= d <= 31 ->
  Strptime.re_match [Strptime.Directive "d"] (pad2 d) acc =
  Some (Strptime.store "d" d acc, "").
Proof. intros Hd. small_N d; reflexivity. Qed.

Lemma re_match_literal c toks s acc :
  Strptime.re_match (Strptime.Literal c :: toks) (String c s) acc =
  Strptime.re_match toks s acc.
Proof. cbn [Strptime.re_match]. rewrite Ascii.eqb_refl. reflexivity. Qed.

Lemma to_datetime_digit_start in_bounds c s format :
  Py.isdigit c = true ->
  to_datetime in_bounds (String c s) format =
    match Strptime.re_match (Strptime.tokenize format) (String c s)
                            Strptime.default_fields with
    | None => Raise ValueError
    | Some (t, rest) =>
        if negb (bool_decide (rest = "")) then Raise ValueError
        else if negb (Strptime.valid_date t) then Raise ValueError
        else if negb (in_bounds t) then Raise OutOfBoundsDatetime
        else Ok (Some t)
    end.
Proof.
  intros Hc. unfold to_datetime.
  rewrite (bool_decide_eq_false_2 (String c s = "")) by discriminate.
  rewrite bool_decide_eq_false_2; [reflexivity|].
  unfold Strptime.nat_strings. intros Hin.
  repeat (apply elem_of_cons in Hin as [Hin|Hin];
          [injection Hin as -> _; discriminate|]).
  inversion Hin.
Qed.

Lemma valid_date_bounds t :
  Strptime.valid_date t = true ->
  1 <= year t <= 9999 /\ 1 <= month t <= 12 /\ 1 <= day t <= 31.
Proof.
  unfold Strptime.valid_date, Strptime.days_in_month.
  rewrite !andb_true_iff, !N.leb_le.
  intros [[[[[? ?] ?] ?] ?] Hd].
  repeat split; try assumption.
  destruct (month t =? 2); [destruct (Strptime.is_leap _); lia|].
  destruct (_ || _); lia.
Qed.

(** C9: for every valid date with a four-digit year that a [Timestamp] can
    hold, parsing its YYYY-MM-DD string gives the date back: the three
    formats tried before [%Y-%m-%d] do not match the string (whatever the
    range of [Timestamp]) and [%Y-%m-%d] reads the same year, month and
    day. *)
Theorem custom_date_parser_isoformat
    (in_bounds : Timestamp -> bool) (t : Timestamp) :
  Strptime.valid_date t = true ->
  1000 <= year t ->
  in_bounds t = true ->
  to_datetime in_bounds (isoformat t) "%d-%m-%Y" = Raise ValueError /\
  to_datetime in_bounds (isoformat t) "%d.%m.%Y" = Raise ValueError /\
  to_datetime in_bounds (isoformat t) "%m/%d/%Y" = Raise ValueError /\
  to_datetime in_bounds (isoformat t) "%Y-%m-%d" = Ok (Some t) /\
  custom_date_parser in_bounds (isoformat t) = Ok (Some t).
Proof.
  intros Hv Hy Hb.
  destruct (valid_date_bounds t Hv) as (Hyr & Hm & Hd).
  assert (D1 : Py.isdigit (digit_char (year t / 1000)) = true).
  { apply isdigit_digit_char, N.Div0.div_lt_upper_bound. lia. }
  assert (D2 : Py.isdigit (digit_char ((year t / 100) mod 10)) = true).
  { apply isdigit_digit_char, N.mod_lt. lia. }
  assert (D3 : Py.isdigit (digit_char ((year t / 10) mod 10)) = true).
  { apply isdigit_digit_char, N.mod_lt. lia. }
  assert (F : forall d sep toks, d = "d"%char \/ d = "m"%char ->
              Py.isdigit sep = false ->
              Strptime.re_match
                (Strptime.Directive d :: Strptime.Literal sep :: toks)
                (isoformat t) Strptime.default_fields = None).
  { intros d sep toks Hdm Hsep. unfold isoformat, pad4.
    rewrite !append_cons. apply day_first_fails; assumption. }
  assert (S4 : Strptime.re_match (Strptime.tokenize "%Y-%m-%d") (isoformat t)
                 Strptime.default_fields = Some (t, "")).
  { unfold isoformat. change (Strptime.tokenize "%Y-%m-%d") with
      [Strptime.Directive "Y"; Strptime.Literal "-"; Strptime.Directive "m";
       Strptime.Literal "-"; Strptime.Directive "d"]%char.
    rewrite re_match_year by lia.
    rewrite append_cons, append_nil_l, re_match_literal.
    change ("-" ++ pad2 (day t))%string with (String "-" (pad2 (day t))).
    rewrite re_match_month by lia.
    rewrite re_match_day by lia.
    destruct t; reflexivity. }
  assert (E : exists c s, isoformat t = String c s /\ Py.isdigit c = true).
  { unfold isoformat, pad4. rewrite append_cons. eauto. }
  destruct E as (c & s & E & Hc).
  assert (R : forall fmt d sep toks,
              Strptime.tokenize fmt =
                Strptime.Directive d :: Strptime.Literal sep :: toks ->
              d = "d"%char \/ d = "m"%char -> Py.isdigit sep = false ->
              to_datetime in_bounds (isoformat t) fmt = Raise ValueError).
  { intros fmt d sep toks Ht Hdm Hsep.
    pose proof (F d sep toks Hdm Hsep) as HF.
    rewrite E in *. rewrite to_datetime_digit_start by exact Hc.
    rewrite Ht, HF. reflexivity. }
  assert (R1 := R "%d-%m-%Y" _ _ _ eq_refl (or_introl eq_refl) eq_refl).
  assert (R2 := R "%d.%m.%Y" _ _ _ eq_refl (or_introl eq_refl) eq_refl).
  assert (R3 := R "%m/%d/%Y" _ _ _ eq_refl (or_intror eq_refl) eq_refl).
  assert (R4 : to_datetime in_bounds (isoformat t) "%Y-%m-%d" = Ok (Some t)).
  { rewrite E in *. rewrite to_datetime_digit_start by exact Hc.
    rewrite S4. cbn [negb bool_decide]. rewrite Hv, Hb. reflexivity. }
  repeat split; try assumption.
  unfold custom_date_parser, date_formats, try_formats.
  rewrite R1, R2, R3, R4. reflexivity.
Qed.

Lemma custom_date_parser_isoformat_witness :
  custom_date_parser ns_bounds "2024-02-29" = Ok (Some (mkTimestamp 2024 2 29)).
Proof.
  exact (proj2 (proj2 (proj2 (proj2
    (custom_date_parser_isoformat ns_bounds (mkTimestamp 2024 2 29)
       eq_refl ltac:(vm_compute; discriminate) eq_refl))))).
Defined.

Lemma custom_date_parser_format_order_witness :
  custom_date_parser ns_bounds "01/02/2020" = Ok (Some (mkTimestamp 2020 1 2)).
Proof.
  exact (proj2 (proj2
    (custom_date_parser_format_order ns_bounds "01/02/2020" eq_refl))).
Defined.

Lemma custom_date_parser_never_raises_witness :
  custom_date_parser ns_bounds "next tuesday" = Ok None.
Proof.
  apply (proj2 (proj2
    (custom_date_parser_never_raises ns_bounds "next tuesday"))).
  unfold date_formats.
  repeat (constructor; [exists ValueError; reflexivity|]). constructor.
Defined.

(** ** [traverse] *)

Lemma traverse_Ok {A B} (f : A -> result B) l ys :
  traverse f l = Ok ys -> Forall2 (fun x y => f x = Ok y) l ys.
Proof.
  revert ys. induction l as [|x l IH]; simpl; intros ys H.
  - injection H as <-. constructor.
  - destruct (f x) as [y|e] eqn:Hx; simpl in H; [|discriminate].
    destruct (traverse f l) as [ys'|e]; simpl in H; [|discriminate].
    injection H as <-. constructor; auto.
Qed.

Lemma traverse_total {A B} (f : A -> result B) l :
  Forall (fun x => exists y, f x = Ok y) l -> exists ys, traverse f l = Ok ys.
Proof.
  induction 1 as [|x l [y Hy] _ [ys IH]]; simpl; [eauto|].
  rewrite Hy, IH. simpl. eauto.
Qed.

Lemma traverse_Raise {A B} (f : A -> result B) l x e :
  x ∈ l -> f x = Raise e ->
  (forall y e', f y = Raise e' -> e' = e) ->
  traverse f l = Raise e.
Proof.
  intros Hin Hx Hall. induction l as [|a l IH]; [inversion Hin|].
  simpl. destruct (f a) as [y|e'] eqn:Ha; simpl.
  - apply elem_of_cons in Hin as [->|Hin]; [congruence|].
    rewrite (IH Hin). reflexivity.
  - f_equal. eapply Hall, Ha.
Qed.

(** ** Group keys *)

Lemma insert_sorted_Permutation {A} (le : A -> A -> bool) x l :
  Permutation (insert_sorted le x l) (x :: l).
Proof.
  induction l as [|y l IH]; simpl; [reflexivity|].
  destruct (le x y); [reflexivity|].
  rewrite IH. apply perm_swap.
Qed.

Lemma isort_Permutation {A} (le : A -> A -> bool) l :
  Permutation (isort le l) l.
Proof.
  induction l as [|x l IH]; simpl; [reflexivity|].
  rewrite insert_sorted_Permutation, IH. reflexivity.
Qed.

Lemma elem_of_unique x l : x ∈ unique l <-> x ∈ l.
Proof.
  induction l as [|y l IH]; simpl; [reflexivity|].
  rewrite !elem_of_cons, list_elem_of_filter, IH.
  destruct (decide (x = y)); tauto.
Qed.

Lemma NoDup_unique l : NoDup (unique l).
Proof.
  induction l as [|y l IH]; simpl; constructor.
  - rewrite list_elem_of_filter. tauto.
  - apply list.NoDup_filter, IH.
Qed.

Lemma elem_of_group_keys {D W F} (df : list (row D W F)) k :
  k ∈ group_keys df <-> k ∈ city <$> df.
Proof.
  unfold group_keys. rewrite (isort_Permutation String.leb).
  apply elem_of_unique.
Qed.

(** ** [transform] and [fillna] *)

Lemma group_values_indexed {D W F} c k (df : list (row D W F))
    (g : nat -> nat) :
  snd <$> ((fun ir : nat * row D W F => (ir.1, get_col c ir.2)) <$>
             filter (fun ir => city ir.2 = k) (imap (fun i r => (g i, r)) df))
  = group_values c k df.
Proof.
  unfold group_values. revert g.
  induction df as [|r df IH]; intros g; [reflexivity|].
  cbn [imap]. rewrite !filter_cons. cbn [snd].
  destruct (decide (city r = k)); cbn [fmap list_fmap snd fst];
    [f_equal|]; apply (IH (g ∘ S)).
Qed.

Lemma lookup_index_Some i (x : Series) w :
  (exists v, (i, v) ∈ x) ->
  (forall v, (i, v) ∈ x -> v = w) ->
  lookup_index i x = Some w.
Proof.
  intros [v Hin] Hall. induction x as [|[j u] x IH]; [inversion Hin|].
  simpl. destruct (Nat.eqb_spec j i) as [->|Hne].
  - f_equal. apply Hall. left.
  - apply IH.
    + apply elem_of_cons in Hin as [[= <- _]|Hin]; [congruence|exact Hin].
    + intros v' Hv'. apply Hall. right. exact Hv'.
Qed.

Lemma group_values_indexed_id {D W F} c k (df : list (row D W F)) :
  snd <$> ((fun ir : nat * row D W F => (ir.1, get_col c ir.2)) <$>
             filter (fun ir => city ir.2 = k) (imap (fun i r => (i, r)) df))
  = group_values c k df.
Proof. exact (group_values_indexed c k df id). Qed.

Lemma elem_of_group_piece {D W F} c k (df : list (row D W F)) q j v :
  (j, v) ∈ fillna ((fun ir : nat * row D W F => (ir.1, get_col c ir.2)) <$>
                     filter (fun ir => city ir.2 = k)
                            (imap (fun i r => (i, r)) df)) q
  <-> exists r, df !! j = Some r /\ city r = k /\ v = fill q (get_col c r).
Proof.
  unfold fillna. rewrite list_elem_of_fmap. split.
  - intros ([j' v'] & [= -> ->] & H). simpl.
    apply list_elem_of_fmap in H as ([j'' r] & [= -> ->] & H).
    apply list_elem_of_filter in H as [Hc H]. simpl in *.
    apply elem_of_lookup_imap in H as (i & r' & [= -> ->] & Hl).
    eauto.
  - intros (r & Hl & Hc & ->).
    exists (j, get_col c r). split; [reflexivity|].
    apply list_elem_of_fmap. exists (j, r). split; [reflexivity|].
    apply list_elem_of_filter. split; [exact Hc|].
    apply elem_of_lookup_imap. eauto.
Qed.

Lemma fill_with_rounded_mean_Ok {D W F} c k (df : list (row D W F)) piece :
  fill_with_rounded_mean
    ((fun ir : nat * row D W F => (ir.1, get_col c ir.2)) <$>
       filter (fun ir => city ir.2 = k) (imap (fun i r => (i, r)) df))
  = Ok piece ->
  exists m, py_round (mean (group_values c k df)) = Ok m /\
            piece = fillna
              ((fun ir : nat * row D W F => (ir.1, get_col c ir.2)) <$>
                 filter (fun ir => city ir.2 = k)
                        (imap (fun i r => (i, r)) df))
              (Qc_of_Z m).
Proof.
  unfold fill_with_rounded_mean. rewrite group_values_indexed_id.
  destruct (py_round _) as [m|e]; simpl; [|discriminate].
  intros [= <-]. eauto.
Qed.

(** What [transform] with the imputation function computes for the row at
    position [i]. *)
Lemma transform_fill_lookup {D W F} c (df : list (row D W F)) values i r :
  transform c fill_with_rounded_mean df = Ok values ->
  df !! i = Some r ->
  exists m, py_round (mean (group_values c (city r) df)) = Ok m /\
            values !! i = Some (fill (Qc_of_Z m) (get_col c r)).
Proof.
  unfold transform. intros H Hi.
  destruct (traverse _ (group_keys df)) as [pieces|e] eqn:Ht;
    simpl in H; [|discriminate].
  injection H as <-.
  apply traverse_Ok in Ht.
  assert (Hk : city r ∈ group_keys df).
  { apply elem_of_group_keys, list_elem_of_fmap.
    exists r. split; [reflexivity|]. eapply list_elem_of_lookup_2, Hi. }
  apply list_elem_of_lookup_1 in Hk as [n Hn].
  destruct (Forall2_lookup_l _ _ _ _ _ Ht Hn) as (piece & Hpl & Hp).
  apply fill_with_rounded_mean_Ok in Hp as (m & Hm & Hpiece).
  exists m. split; [exact Hm|].
  rewrite list_lookup_fmap, lookup_seq_lt by (eapply lookup_lt_Some, Hi).
  simpl. f_equal.
  erewrite lookup_index_Some; [reflexivity| |].
  - exists (fill (Qc_of_Z m) (get_col c r)).
    apply list_elem_of_In, in_concat. exists piece.
    split; [apply list_elem_of_In; eapply list_elem_of_lookup_2, Hpl|].
    apply list_elem_of_In. rewrite Hpiece.
    apply elem_of_group_piece. eauto.
  - intros v Hv.
    apply list_elem_of_In, in_concat in Hv as (piece' & Hin & Hv).
    apply list_elem_of_In, list_elem_of_lookup_1 in Hin as [n' Hn'].
    destruct (Forall2_lookup_r _ _ _ _ _ Ht Hn') as (k & Hk & Hp').
    apply fill_with_rounded_mean_Ok in Hp' as (m' & Hm' & ->).
    apply list_elem_of_In, elem_of_group_piece in Hv as (r' & Hr' & Hc & ->).
    assert (r' = r) by congruence. subst r'. subst k.
    assert (m' = m) by congruence. subst m'. reflexivity.
Qed.

Lemma transform_length {D W F} c f (df : list (row D W F)) values :
  transform c f df = Ok values -> length values = length df.
Proof.
  unfold transform. destruct (traverse _ _); simpl; [|discriminate].
  intros [= <-]. rewrite length_fmap, length_seq. reflexivity.
Qed.

(** Imputation, row by row: the row at position [i] keeps its value in
    column [c] when it has one and receives the rounded mean of its city
    otherwise; nothing else in the row changes. *)
Lemma impute_lookup {D W F} c (df df' : list (row D W F)) i r :
  impute c df = Ok df' ->
  df !! i = Some r ->
  exists m, py_round (mean (group_values c (city r) df)) = Ok m /\
            df' !! i = Some (set_col c (fill (Qc_of_Z m) (get_col c r)) r).
Proof.
  unfold impute, assign. intros H Hi.
  destruct (transform c _ df) as [values|e] eqn:Ht; simpl in H; [|discriminate].
  injection H as <-.
  destruct (transform_fill_lookup _ _ _ _ _ Ht Hi) as (m & Hm & Hv).
  exists m. split; [exact Hm|].
  rewrite lookup_zip_with, Hv, Hi. reflexivity.
Qed.

Lemma impute_length {D W F} c (df df' : list (row D W F)) :
  impute c df = Ok df' -> length df' = length df.
Proof.
  unfold impute, assign.
  destruct (transform c _ df) as [values|e] eqn:Ht; simpl; [|discriminate].
  intros [= <-]. rewrite length_zip_with.
  apply transform_length in Ht. lia.
Qed.

Lemma impute_rows {D W F} c (df df' : list (row D W F)) :
  impute c df = Ok df' ->
  Forall2 (fun r r' => exists v, r' = set_col c v r) df df'.
Proof.
  intros H. apply Forall2_same_length_lookup_2.
  - symmetry. eapply impute_length, H.
  - intros i r r' Hr Hr'.
    destruct (impute_lookup _ _ _ _ _ H Hr) as (m & _ & Hm).
    rewrite Hr' in Hm. injection Hm as ->. eauto.
Qed.

Lemma impute_total {D W F} c (df : list (row D W F)) :
  every_group_has_value c df -> exists df', impute c df = Ok df'.
Proof.
  intros Hall. unfold impute, transform.
  destruct (traverse_total
              (fun k => fill_with_rounded_mean
                 ((fun ir : nat * row D W F => (ir.1, get_col c ir.2)) <$>
                    filter (fun ir => city ir.2 = k)
                           (imap (fun i r => (i, r)) df)))
              (group_keys df)) as [pieces Hp].
  - apply list.Forall_forall. intros k Hk.
    apply elem_of_group_keys, list_elem_of_fmap in Hk as (r & -> & Hr).
    unfold fill_with_rounded_mean. rewrite group_values_indexed_id.
    unfold every_group_has_value in Hall.
    rewrite list.Forall_forall in Hall. destruct (Hall r Hr) as [q ->].
    simpl. eauto.
  - rewrite Hp. simpl. eauto.
Qed.

Lemma impute_raises {D W F} c (df : list (row D W F)) r :
  r ∈ df -> mean (group_values c (city r) df) = None ->
  impute c df = Raise ValueError.
Proof.
  intros Hr Hm. unfold impute, transform.
  erewrite (traverse_Raise _ _ (city r) ValueError); [reflexivity| | |].
  - apply elem_of_group_keys, list_elem_of_fmap. eauto.
  - unfold fill_with_rounded_mean. rewrite group_values_indexed_id, Hm.
    reflexivity.
  - intros k e. unfold fill_with_rounded_mean.
    destruct (py_round _) as [m|e0] eqn:E; simpl; [discriminate|].
    intros [= <-]. clear Hm. revert E. unfold py_round.
    destruct (mean _); [discriminate|]. intros [= <-]. reflexivity.
Qed.

Lemma get_col_set_col_ne {D W F} c c' v (r : row D W F) :
  c' <> c -> get_col c' (set_col c v r) = get_col c' r.
Proof. destruct c, c'; simpl; congruence. Qed.

Lemma get_col_set_col {D W F} c v (r : row D W F) :
  get_col c (set_col c v r) = v.
Proof. destruct c; reflexivity. Qed.

Lemma city_set_col {D W F} c v (r : row D W F) :
  city (set_col c v r) = city r.
Proof. destruct c; reflexivity. Qed.

Lemma group_values_set_col {D W F} c c' k (df df' : list (row D W F)) :
  c' <> c ->
  Forall2 (fun r r' => exists v, r' = set_col c v r) df df' ->
  group_values c' k df' = group_values c' k df.
Proof.
  intros Hne. unfold group_values.
  induction 1 as [|r r' df df' [v ->] _ IH]; [reflexivity|].
  rewrite !filter_cons, city_set_col.
  destruct (decide (city r = k)); [|exact IH].
  rewrite !fmap_cons, IH, get_col_set_col_ne by exact Hne. reflexivity.
Qed.

Lemma every_group_has_value_set_col {D W F} c c'
    (df df' : list (row D W F)) :
  c' <> c ->
  Forall2 (fun r r' => exists v, r' = set_col c v r) df df' ->
  every_group_has_value c' df -> every_group_has_value c' df'.
Proof.
  intros Hne H2 Hall. unfold every_group_has_value in *.
  apply list.Forall_forall. intros r' Hr'.
  apply list_elem_of_lookup_1 in Hr' as [i Hi].
  destruct (Forall2_lookup_r _ _ _ _ _ H2 Hi) as (r & Hr & v & ->).
  rewrite city_set_col, (group_values_set_col c c' _ df df' Hne H2).
  rewrite list.Forall_forall in Hall. apply Hall.
  eapply list_elem_of_lookup_2, Hr.
Qed.

Lemma every_group_has_value_set_col_inv {D W F} c c'
    (df df' : list (row D W F)) :
  c' <> c ->
  Forall2 (fun r r' => exists v, r' = set_col c v r) df df' ->
  every_group_has_value c' df' -> every_group_has_value c' df.
Proof.
  intros Hne H2 Hall. unfold every_group_has_value in *.
  apply list.Forall_forall. intros r Hr.
  apply list_elem_of_lookup_1 in Hr as [i Hi].
  destruct (Forall2_lookup_l _ _ _ _ _ H2 Hi) as (r' & Hr' & v & ->).
  rewrite list.Forall_forall in Hall.
  specialize (Hall _ (list_elem_of_lookup_2 _ _ _ Hr')).
  rewrite city_set_col, (group_values_set_col c c' _ df df' Hne H2) in Hall.
  exact Hall.
Qed.

Lemma impute_Ok_has_value {D W F} c (df df' : list (row D W F)) :
  impute c df = Ok df' -> every_group_has_value c df.
Proof.
  intros H. apply list.Forall_forall. intros r Hr.
  apply list_elem_of_lookup_1 in Hr as [i Hi].
  destruct (impute_lookup _ _ _ _ _ H Hi) as (m & Hm & _).
  unfold py_round in Hm. destruct (mean _); [eauto|discriminate].
Qed.

(** ** Rounding *)

Lemma Qfloor_half (k : Z) : Qfloor (inject_Z k + (1 # 2)) = k.
Proof.
  unfold Qfloor, Qplus, inject_Z. simpl.
  rewrite Z.mul_1_r. replace (k * 2 + 1)%Z with (1 + k * 2)%Z by lia.
  rewrite Z.div_add by lia. reflexivity.
Qed.

Lemma round_half_even_tie (k : Z) :
  round_half_even (Qc_of_Z k + Q2Qc (1 # 2))%Qc
  = if Z.even k then k else (k + 1)%Z.
Proof.
  unfold round_half_even.
  assert (Hf : Qfloor (Qc_of_Z k + Q2Qc (1 # 2))%Qc = k).
  { transitivity (Qfloor (inject_Z k + (1 # 2))); [|apply Qfloor_half].
    apply Qfloor_comp.
    unfold Qcplus, Q2Qc. simpl. rewrite !Qred_correct. reflexivity. }
  rewrite Hf.
  replace (Qc_of_Z k + Q2Qc (1 # 2) - Qc_of_Z k)%Qc with (Q2Qc (1 # 2))
    by ring.
  assert (E : (Q2Qc (1 # 2) ?= Q2Qc (1 # 2))%Qc = Eq)
    by (apply Qceq_alt; reflexivity).
  rewrite E. reflexivity.
Qed.

(** ** Imputation *)

(** Every missing cell of the column receives the rounded mean of the
    values of its city, and a cell that has a value keeps it. *)
Lemma impute_fills_missing {D W F} c (df df' : list (row D W F)) i r :
  impute c df = Ok df' ->
  df !! i = Some r ->
  exists m q r',
    mean (group_values c (city r) df) = Some q /\
    m = round_half_even q /\
    df' !! i = Some r' /\
    get_col c r' = match get_col c r with
                   | Some v => Some v
                   | None => Some (Qc_of_Z m)
                   end.
Proof.
  intros H Hi.
  destruct (impute_lookup _ _ _ _ _ H Hi) as (m & Hm & Hr').
  unfold py_round in Hm.
  destruct (mean _) as [q|]; [|discriminate]. injection Hm as <-.
  eexists _, q, _. repeat split; [exact Hr'|].
  rewrite get_col_set_col. reflexivity.
Qed.

(** The scenario of the specification: the missing temperature of city X
    becomes 15, the mean of 10 and 20. *)
Lemma impute_scenario :
  temperature_celsius <$>
    default []
      (match impute Temperature
               [ mkRow "X" (Some "2020-01-01") (Some "rain") None None None tt;
                 mkRow "X" (Some "2020-01-02") (Some "rain")
                       (Some (Qc_of_Z 10)) None None tt;
                 mkRow "X" (Some "2020-01-03") (Some "rain")
                       (Some (Qc_of_Z 20)) None None tt ] with
       | Ok df' => Some df'
       | Raise _ => None
       end)
  = [Some (Qc_of_Z 15); Some (Qc_of_Z 10); Some (Qc_of_Z 20)].
Proof. reflexivity. Qed.

(** C2, the group without values: the code raises.  A table whose only row
    of city X has no temperature makes [round] receive the NaN mean, and
    the [ValueError] leaves [clean_weather_data]. *)
Theorem impute_group_without_values_raises (in_bounds : Timestamp -> bool) :
  let df : list raw_row :=
    [ mkRow "X" (Some "2020-01-01") (Some "rain")
            None (Some (Qc_of_Z 50)) (Some (Qc_of_Z 5)) tt ] in
  mean (group_values Temperature "X" df) = None /\
  impute Temperature df = Raise ValueError /\
  clean_weather_data in_bounds df = Raise ValueError.
Proof. repeat split. Qed.

(** C10: a group mean of exactly k + 1/2 imputes the even one of k and
    k + 1 into the missing cells of the group (15.5 gives 16, 14.5 gives
    14). *)
Theorem impute_rounds_half_to_even {D W F} (c : numcol)
    (df df' : list (row D W F)) (i : nat) (r : row D W F) (k : Z) :
  impute c df = Ok df' ->
  df !! i = Some r ->
  get_col c r = None ->
  mean (group_values c (city r) df) = Some (Qc_of_Z k + Q2Qc (1 # 2))%Qc ->
  (exists r', df' !! i = Some r' /\
              get_col c r' = Some (Qc_of_Z (if Z.even k then k else k + 1)%Z)) /\
  round_half_even (Q2Qc (31 # 2)) = 16%Z /\
  round_half_even (Q2Qc (29 # 2)) = 14%Z.
Proof.
  intros H Hi Hnone Hmean. split; [|split; reflexivity].
  destruct (impute_fills_missing _ _ _ _ _ H Hi)
    as (m & q & r' & Hq & -> & Hr' & Hc).
  exists r'. split; [exact Hr'|].
  rewrite Hc, Hnone. rewrite Hmean in Hq. injection Hq as <-.
  rewrite round_half_even_tie. reflexivity.
Qed.

Lemma impute_rounds_half_to_even_witness :
  exists r', half_mean_imputed !! 0%nat = Some r' /\
             temperature_celsius r' = Some (Qc_of_Z 16).
Proof.
  refine (proj1 (impute_rounds_half_to_even Temperature half_mean_table
                   half_mean_imputed 0
                   (mkRow "X" (Some "2020-01-01") (Some "rain")
                          None None None tt) 15 _ _ _ _)).
  all: reflexivity.
Defined.

(** ** The pipeline *)

Lemma Forall2_filter {A B} (R : A -> B -> Prop) (P : A -> Prop)
    (Q : B -> Prop) `{!forall x, Decision (P x)} `{!forall y, Decision (Q y)}
    l k :
  Forall2 R l k ->
  (forall x y, R x y -> (P x <-> Q y)) ->
  Forall2 R (filter P l) (filter Q k).
Proof.
  intros HF HPQ. induction HF as [|x y l k Hxy _ IH]; [constructor|].
  rewrite !filter_cons. pose proof (HPQ x y Hxy) as E.
  destruct (decide (P x)), (decide (Q y)); try tauto.
  constructor; assumption.
Qed.

Lemma Forall2_elem_of_l {A B} (R : A -> B -> Prop) l k x :
  Forall2 R l k -> x ∈ l -> exists y, y ∈ k /\ R x y.
Proof.
  intros H Hx. apply list_elem_of_lookup_1 in Hx as [i Hi].
  destruct (Forall2_lookup_l _ _ _ _ _ H Hi) as (y & Hy & HR).
  exists y. split; [eapply list_elem_of_lookup_2, Hy|exact HR].
Qed.

Lemma parse_date_cell_returns in_bounds cell :
  exists d, parse_date_cell in_bounds cell = Ok d.
Proof.
  destruct cell as [s|]; simpl; [|eauto].
  apply try_formats_returns.
Qed.

Lemma apply_date_parser_Ok in_bounds {W F}
    (df : list (row (option string) W F)) :
  exists out,
    apply_date_parser in_bounds df = Ok out /\
    Forall2 (fun r r' => exists d, parse_date_cell in_bounds (date r) = Ok d /\
                                   r' = set_date d r) df out.
Proof.
  unfold apply_date_parser.
  induction df as [|r df (out & Hout & IH)]; simpl.
  - exists []. split; [reflexivity|constructor].
  - destruct (parse_date_cell_returns in_bounds (date r)) as [d Hd].
    rewrite Hd, Hout. simpl. eexists. split; [reflexivity|].
    constructor; eauto.
Qed.

Lemma impute_same_labels {D W F} c (df df' : list (row D W F)) :
  impute c df = Ok df' -> Forall2 same_labels df df'.
Proof.
  intros H. eapply list.Forall2_impl; [apply (impute_rows _ _ _ H)|].
  intros r r' [v ->]. destruct c; repeat split.
Qed.

Lemma Forall2_same_labels_trans {D W F} (a b c : list (row D W F)) :
  Forall2 same_labels a b -> Forall2 same_labels b c ->
  Forall2 same_labels a c.
Proof.
  intros Hab Hbc. eapply Forall2_trans; [|exact Hab|exact Hbc].
  unfold same_labels. intros x y z (-> & -> & ->) (-> & -> & ->). auto.
Qed.

Lemma impute_all_total {D W F} (df : list (row D W F)) :
  (forall c, every_group_has_value c df) ->
  exists df', impute_all df = Ok df' /\ Forall2 same_labels df df'.
Proof.
  intros Hall. unfold impute_all.
  destruct (impute_total Temperature df (Hall _)) as [df1 H1].
  pose proof (impute_rows _ _ _ H1) as R1.
  destruct (impute_total Humidity df1) as [df2 H2].
  { eapply every_group_has_value_set_col; [|exact R1|apply Hall].
    discriminate. }
  pose proof (impute_rows _ _ _ H2) as R2.
  destruct (impute_total Wind df2) as [df3 H3].
  { eapply every_group_has_value_set_col; [|exact R2|]; [discriminate|].
    eapply every_group_has_value_set_col; [|exact R1|apply Hall].
    discriminate. }
  exists df3. rewrite H1. simpl. rewrite H2. simpl. split; [exact H3|].
  eapply Forall2_same_labels_trans; [eapply impute_same_labels, H1|].
  eapply Forall2_same_labels_trans; eapply impute_same_labels; eassumption.
Qed.

(** The stages after the imputation, as [clean_weather_data] chains them. *)
Lemma clean_weather_data_stages in_bounds df :
  clean_weather_data in_bounds df =
    let! df := impute_all df in
    let! df := apply_date_parser in_bounds (dropna df) in
    Ok (filter (fun r : clean_row => weather_condition r <> "Unknown")
          ((fun r => set_weather_condition
                       (convert_to_string_and_capitalize (weather_condition r))
                       r) <$>
             ((fun r => set_temperature_fahrenheit
                          (fahrenheit (temperature_celsius r)) r) <$> df))).
Proof.
  unfold clean_weather_data, impute_all.
  destruct (impute Temperature df) as [df1|]; simpl; [|reflexivity].
  destruct (impute Humidity df1) as [df2|]; simpl; reflexivity.
Qed.

(** The output of the pipeline, when the imputation does not raise: the
    rows that pass the two filters, each taken through stages 3 to 5, in
    order. *)
Lemma clean_weather_data_rows in_bounds df df3 :
  impute_all df = Ok df3 ->
  Forall2 same_labels df df3 ->
  exists out,
    clean_weather_data in_bounds df = Ok out /\
    Forall2 (cleaned_from in_bounds)
      (filter (fun r => convert_to_string_and_capitalize (weather_condition r)
                        <> "Unknown") (dropna df))
      out.
Proof.
  intros H3 HL. rewrite clean_weather_data_stages, H3. simpl.
  destruct (apply_date_parser_Ok in_bounds (dropna df3)) as (df5 & H5 & R5).
  rewrite H5. simpl. eexists. split; [reflexivity|].
  apply Forall2_filter.
  - rewrite <- !list_fmap_compose. apply Forall2_fmap_r.
    assert (HD : Forall2 same_labels (dropna df) (dropna df3)).
    { unfold dropna. apply Forall2_filter; [exact HL|].
      intros x y (_ & -> & ->). reflexivity. }
    clear -HD R5. revert df5 R5.
    induction HD as [|x y l k Hxy _ IH]; intros df5 R5.
    + inversion R5. constructor.
    + inversion R5 as [|? z ? k' (d & Hd & ->) R5' ]; subst.
      constructor; [|apply IH, R5'].
      destruct Hxy as (Hc & Hdt & Hw). unfold cleaned_from. simpl.
      rewrite Hc, <- Hdt, Hw. auto.
  - intros x y (_ & _ & -> & _). reflexivity.
Qed.

Lemma clean_weather_data_total in_bounds df :
  (forall c, every_group_has_value c df) ->
  exists out,
    clean_weather_data in_bounds df = Ok out /\
    Forall2 (cleaned_from in_bounds)
      (filter (fun r => convert_to_string_and_capitalize (weather_condition r)
                        <> "Unknown") (dropna df))
      out.
Proof.
  intros Hall.
  destruct (impute_all_total df Hall) as (df3 & H3 & HL).
  apply (clean_weather_data_rows in_bounds df df3 H3 HL).
Qed.

(** The pipeline returns exactly when every city has a value in each of
    the three numeric columns; otherwise stage 1 raises. *)
Lemma clean_weather_data_returns_iff in_bounds df :
  (exists out, clean_weather_data in_bounds df = Ok out) <->
  (forall c, every_group_has_value c df).
Proof.
  split.
  - intros [out H]. rewrite clean_weather_data_stages in H.
    unfold impute_all in H.
    destruct (impute Temperature df) as [df1|] eqn:H1; simpl in H;
      [|discriminate].
    destruct (impute Humidity df1) as [df2|] eqn:H2; simpl in H;
      [|discriminate].
    destruct (impute Wind df2) as [df3|] eqn:H3; simpl in H; [|discriminate].
    pose proof (impute_rows _ _ _ H1) as R1.
    pose proof (impute_rows _ _ _ H2) as R2.
    intros [| |].
    + eapply impute_Ok_has_value, H1.
    + eapply every_group_has_value_set_col_inv; [|exact R1|];
        [discriminate|]. eapply impute_Ok_has_value, H2.
    + eapply every_group_has_value_set_col_inv; [|exact R1|];
        [discriminate|].
      eapply every_group_has_value_set_col_inv; [|exact R2|];
        [discriminate|]. eapply impute_Ok_has_value, H3.
  - intros Hall.
    destruct (clean_weather_data_total in_bounds df Hall) as (out & H & _).
    eauto.
Qed.

(** C1: in every row of a table that [clean_weather_data] returns, a
    temperature_celsius of [c] comes with a temperature_fahrenheit of
    [c * 9 / 5 + 32]. *)
Theorem clean_weather_data_fahrenheit
    (in_bounds : Timestamp -> bool) (df : list raw_row)
    (out : list clean_row) (r : clean_row) (c : Qc) :
  clean_weather_data in_bounds df = Ok out ->
  r ∈ out ->
  temperature_celsius r = Some c ->
  temperature_fahrenheit r
  = Some (c * Qc_of_Z 9 / Qc_of_Z 5 + Qc_of_Z 32)%Qc.
Proof.
  rewrite clean_weather_data_stages. intros H Hr Hc.
  destruct (impute_all df) as [df3|]; simpl in H; [|discriminate].
  destruct (apply_date_parser _ _) as [df5|]; simpl in H; [|discriminate].
  injection H as <-.
  apply list_elem_of_filter in Hr as [_ Hr].
  apply list_elem_of_fmap in Hr as (x & -> & Hx).
  apply list_elem_of_fmap in Hx as (y & -> & Hy).
  simpl in *. rewrite Hc. reflexivity.
Qed.

(** C7: when the imputation has a value for every city, the pipeline
    returns, and its rows are exactly the raw rows that have a date and a
    weather_condition whose normal form is not "Unknown", in order; a row
    whose date no format parses is among them, with NaT as its date. *)
Theorem clean_weather_data_keeps_unparsed_dates
    (in_bounds : Timestamp -> bool) (df : list raw_row) :
  (forall c, every_group_has_value c df) ->
  exists out,
    clean_weather_data in_bounds df = Ok out /\
    Forall2 (cleaned_from in_bounds)
      (filter (fun r => convert_to_string_and_capitalize (weather_condition r)
                        <> "Unknown") (dropna df))
      out /\
    (forall r s w,
       r ∈ df ->
       date r = Some s ->
       custom_date_parser in_bounds s = Ok None ->
       weather_condition r = Some w ->
       convert_to_string_and_capitalize (Some w) <> "Unknown" ->
       exists r', r' ∈ out /\ city r' = city r /\ date r' = None /\
                  weather_condition r' =
                    convert_to_string_and_capitalize (Some w)).
Proof.
  intros Hall.
  destruct (clean_weather_data_total in_bounds df Hall) as (out & Hout & HR).
  exists out. split; [exact Hout|]. split; [exact HR|].
  intros r s w Hr Hd Hp Hw Hn.
  assert (Hin : r ∈ filter
            (fun r => convert_to_string_and_capitalize (weather_condition r)
                      <> "Unknown") (dropna df)).
  { apply list_elem_of_filter. split; [rewrite Hw; exact Hn|].
    unfold dropna. apply list_elem_of_filter.
    rewrite Hd, Hw. split; [split; eauto|exact Hr]. }
  destruct (Forall2_elem_of_l _ _ _ _ HR Hin)
    as (r' & Hr' & Hc & Hdate & Hwc & _).
  exists r'. rewrite Hd in Hdate. simpl in Hdate. rewrite Hw in Hwc.
  repeat split; try assumption. congruence.
Qed.

Lemma clean_weather_data_keeps_unparsed_dates_witness :
  exists out,
    clean_weather_data ns_bounds unparsed_date_table = Ok out /\
    exists r', r' ∈ out /\ city r' = "Lagos" /\ date r' = None /\
               weather_condition r' = "Sunny".
Proof.
  destruct (clean_weather_data_keeps_unparsed_dates ns_bounds
              unparsed_date_table) as (out & Hout & _ & Hrow).
  - intros c. destruct c; repeat constructor; eexists; reflexivity.
  - exists out. split; [exact Hout|].
    apply (Hrow (mkRow "Lagos" (Some "last friday") (Some " sunny")
                       (Some (Qc_of_Z 31)) (Some (Qc_of_Z 70)) None tt)
                "last friday" " sunny").
    + left.
    + reflexivity.
    + reflexivity.
    + reflexivity.
    + discriminate.
Defined.

Lemma clean_weather_data_fahrenheit_witness :
  temperature_fahrenheit
    (mkRow "Lagos" (Some (mkTimestamp 2024 5 1)) "Rain"
           (Some (Qc_of_Z 31)) (Some (Qc_of_Z 80)) (Some (Qc_of_Z 12))
           (fahrenheit (Some (Qc_of_Z 31))) : clean_row)
  = Some (Qc_of_Z 31 * Qc_of_Z 9 / Qc_of_Z 5 + Qc_of_Z 32)%Qc.
Proof.
  apply (clean_weather_data_fahrenheit ns_bounds unparsed_date_table
           [ mkRow "Lagos" None "Sunny"
                   (Some (Qc_of_Z 31)) (Some (Qc_of_Z 70)) (Some (Qc_of_Z 12))
                   (fahrenheit (Some (Qc_of_Z 31)));
             mkRow "Lagos" (Some (mkTimestamp 2024 5 1)) "Rain"
                   (Some (Qc_of_Z 31)) (Some (Qc_of_Z 80)) (Some (Qc_of_Z 12))
                   (fahrenheit (Some (Qc_of_Z 31))) ]).
  - reflexivity.
  - right. left.
  - reflexivity.
Defined.

(** ** The "Unknown" filter *)

Lemma lstrip_app l t :
  all_space l = true -> starts_with_space t = false ->
  Py.lstrip (l ++ t)%string = t.
Proof.
  intros Hl Ht. induction l as [|c l IH].
  - rewrite append_nil_l. destruct t as [|c t]; [reflexivity|].
    simpl in *. rewrite Ht. reflexivity.
  - rewrite append_cons. simpl in *.
    apply andb_true_iff in Hl as [-> Hl]. auto.
Qed.

Lemma rstrip_all_space r : all_space r = true -> Py.rstrip r = "".
Proof.
  induction r as [|c r IH]; [reflexivity|]. simpl.
  intros [Hc Hr]%andb_true_iff. rewrite (IH Hr), Hc. reflexivity.
Qed.


Lemma rstrip_app t r :
  all_space r = true -> ends_with_space t = false ->
  Py.rstrip (t ++ r)%string = t.
Proof.
  intros Hr. induction t as [|c t IH]; intros Ht.
  - rewrite append_nil_l. apply rstrip_all_space, Hr.
  - rewrite append_cons. simpl. destruct t as [|c' t].
    + rewrite append_nil_l, (rstrip_all_space _ Hr).
      simpl in Ht. rewrite Ht. reflexivity.
    + rewrite IH by exact Ht. reflexivity.
Qed.

Lemma strip_app l t r :
  all_space l = true -> all_space r = true ->
  starts_with_space t = false -> ends_with_space t = false ->
  Py.strip (l ++ t ++ r)%string = t.
Proof.
  intros Hl Hr Hs He. unfold Py.strip.
  destruct t as [|c t].
  - rewrite append_nil_l.
    assert (Hlr : all_space (l ++ r)%string = true).
    { clear -Hl Hr. induction l as [|a l IH]; [exact Hr|].
      rewrite append_cons. simpl in *.
      apply andb_true_iff in Hl as [-> Hl]. auto. }
    destruct (lstrip_spec (l ++ r)%string) as (l' & Heq & _ & _).
    assert (Ha : all_space (Py.lstrip (l ++ r)%string) = true).
    { clear -Hlr. induction (l ++ r)%string as [|a s IH]; [reflexivity|].
      simpl in *. apply andb_true_iff in Hlr as [-> Hs]. auto. }
    apply rstrip_all_space, Ha.
  - rewrite lstrip_app; [|exact Hl|rewrite append_cons; exact Hs].
    apply rstrip_app; assumption.
Qed.

Lemma lower_inv c x :
  Py.lower c = x -> Py.islower x = true -> c = x \/ c = Py.upper x.
Proof.
  unfold Py.lower. destruct (Py.isupper c) eqn:Hu; [|auto].
  intros <- Hl. right. unfold Py.upper. rewrite Hl.
  apply in_range_spec in Hu.
  rewrite code_ascii_of_N by lia.
  replace (Py.code c + 32 - 32) with (Py.code c) by lia.
  unfold Py.code. symmetry. apply ascii_N_embedding.
Qed.

(** Every case and whitespace variant of "unknown" is normalised to
    "Unknown". *)
Lemma unknown_variant_normalizes w :
  unknown_variant w -> convert_to_string_and_capitalize (Some w) = "Unknown".
Proof.
  intros (l & u & r & -> & Hl & Hr & Hu).
  unfold convert_to_string_and_capitalize, Py.str.
  do 8 (destruct u as [|? u]; try discriminate).
  simpl in Hu. injection Hu as H1 H2 H3 H4 H5 H6 H7.
  apply lower_inv in H1 as [-> | ->]; [| |reflexivity];
  apply lower_inv in H2 as [-> | ->]; try reflexivity;
  apply lower_inv in H3 as [-> | ->]; try reflexivity;
  apply lower_inv in H4 as [-> | ->]; try reflexivity;
  apply lower_inv in H5 as [-> | ->]; try reflexivity;
  apply lower_inv in H6 as [-> | ->]; try reflexivity;
  apply lower_inv in H7 as [-> | ->]; try reflexivity;
  (rewrite strip_app by (assumption || reflexivity); reflexivity).
Qed.

Lemma filter_none {A} (P : A -> Prop) `{!forall x, Decision (P x)} l :
  (forall x, x ∈ l -> ~ P x) -> filter P l = [].
Proof.
  induction l as [|a l IH]; intros Hl; [reflexivity|].
  rewrite filter_cons_False by (apply Hl; left).
  apply IH. intros x Hx. apply Hl. right. exact Hx.
Qed.

(** No row of a returned table is "Unknown". *)
Lemma clean_weather_data_no_Unknown in_bounds df out r :
  clean_weather_data in_bounds df = Ok out ->
  r ∈ out -> weather_condition r <> "Unknown".
Proof.
  rewrite clean_weather_data_stages. intros H Hr.
  destruct (impute_all df) as [df3|]; simpl in H; [|discriminate].
  destruct (apply_date_parser _ _) as [df5|]; simpl in H; [|discriminate].
  injection H as <-.
  apply list_elem_of_filter in Hr as [Hr _]. exact Hr.
Qed.

(** When the imputation has a value for every city, a table made of
    variants of "unknown" is cleaned to the empty table. *)
Lemma clean_weather_data_all_unknown in_bounds df :
  (forall c, every_group_has_value c df) ->
  Forall (fun r => exists w, weather_condition r = Some w /\
                             unknown_variant w) df ->
  clean_weather_data in_bounds df = Ok [].
Proof.
  intros Hall Hu.
  destruct (clean_weather_data_total in_bounds df Hall)
    as (out & Hout & HR).
  rewrite Hout. f_equal.
  assert (E : filter
            (fun r => convert_to_string_and_capitalize (weather_condition r)
                      <> "Unknown") (dropna df) = []).
  { apply filter_none. intros r Hr.
    unfold dropna in Hr. apply list_elem_of_filter in Hr as [_ Hr].
    rewrite list.Forall_forall in Hu.
    destruct (Hu r Hr) as (w & -> & Hw).
    rewrite (unknown_variant_normalizes w Hw). tauto. }
  rewrite E in HR. inversion HR. reflexivity.
Qed.

(** C3, the failing table: its only row is a variant of "unknown", and
    [clean_weather_data] raises instead of returning the empty table,
    because city X has no temperature to average. *)
Theorem clean_weather_data_all_unknown_raises (in_bounds : Timestamp -> bool) :
  let df : list raw_row :=
    [ mkRow "X" (Some "2020-01-01") (Some " UnKnown ")
            None (Some (Qc_of_Z 50)) (Some (Qc_of_Z 5)) tt ] in
  convert_to_string_and_capitalize (Some " UnKnown ") = "Unknown" /\
  clean_weather_data in_bounds df = Raise ValueError.
Proof. split; reflexivity. Qed.

(** ** The top-5 aggregation *)

Section InsertionSort.
Context {A : Type} (le : A -> A -> bool).
Hypothesis le_total : forall a b, le a b = true \/ le b a = true.

Let R (a b : A) : Prop := le a b = true.

Lemma HdRel_insert_sorted y x l :
  HdRel R y l -> R y x -> HdRel R y (insert_sorted le x l).
Proof.
  intros Hl Hx. destruct l as [|z l]; simpl; [constructor; exact Hx|].
  destruct (le x z); constructor; [exact Hx|].
  inversion Hl; assumption.
Qed.

Lemma insert_sorted_Sorted x l :
  Sorted R l -> Sorted R (insert_sorted le x l).
Proof.
  induction 1 as [|y l Hs IH Hh]; simpl; [repeat constructor|].
  destruct (le x y) eqn:Hxy.
  - constructor; [constructor; assumption|constructor; exact Hxy].
  - constructor; [exact IH|].
    apply HdRel_insert_sorted; [exact Hh|].
    destruct (le_total x y) as [H|H]; [congruence|exact H].
Qed.

Lemma isort_Sorted l : Sorted R (isort le l).
Proof.
  induction l as [|x l IH]; simpl; [constructor|].
  apply insert_sorted_Sorted, IH.
Qed.
End InsertionSort.

Lemma group_keys_Sorted {D W F} (df : list (row D W F)) :
  Sorted (fun a b => String.leb a b = true) (group_keys df).
Proof. apply isort_Sorted, String.leb_total. Qed.

Lemma group_keys_NoDup {D W F} (df : list (row D W F)) :
  NoDup (group_keys df).
Proof.
  unfold group_keys. rewrite (isort_Permutation String.leb).
  apply NoDup_unique.
Qed.

Lemma groupby_mean_keys {D W F} keys (df : list (row D W F)) :
  fst <$> groupby_mean keys df = keys.
Proof.
  unfold groupby_mean. rewrite <- list_fmap_compose.
  induction keys as [|k keys IH]; [reflexivity|].
  rewrite fmap_cons, IH. reflexivity.
Qed.

Lemma Qc_leb_total (a b : string * Qc) :
  Qc_leb a.2 b.2 = true \/ Qc_leb b.2 a.2 = true.
Proof.
  unfold Qc_leb. rewrite !Qle_bool_iff.
  destruct (Qlt_le_dec a.2 b.2) as [H|H]; [left; apply Qlt_le_weak, H|auto].
Qed.

Lemma non_nan_nan_Permutation (l : list (string * option Qc)) :
  ((fun kv : string * Qc => (kv.1, Some kv.2)) <$> non_nan l) ++ nan l ≡ₚ l.
Proof.
  unfold non_nan, nan. induction l as [|[k [v|]] l IH]; [reflexivity| |].
  - cbn [omap list_omap snd fst]. rewrite filter_cons_False by discriminate.
    rewrite fmap_cons. simpl. rewrite IH. reflexivity.
  - cbn [omap list_omap snd fst]. rewrite filter_cons_True by reflexivity.
    rewrite <- Permutation_middle, IH. reflexivity.
Qed.

Lemma sort_values_descending_Permutation l :
  sort_values_descending l ≡ₚ l.
Proof.
  unfold sort_values_descending.
  rewrite reverse_Permutation, (isort_Permutation _), reverse_Permutation.
  apply non_nan_nan_Permutation.
Qed.

Lemma sort_values_descending_sorted l :
  descending (sort_values_descending l).
Proof.
  unfold descending, sort_values_descending.
  apply StronglySorted_app_2.
  - intros a b _ Hb. apply list_elem_of_filter in Hb as [Hb _].
    rewrite Hb. destruct a.2; exact I.
  - apply (StronglySorted_fmap _
             (flip (fun a b : string * Qc => Qc_leb a.2 b.2 = true))).
    + intros x y Hxy. unfold flip, Qc_leb in Hxy. simpl.
      apply Qle_bool_iff, Hxy.
    + apply Sorted_StronglySorted.
      * intros x y z Hxy Hyz. unfold flip, Qc_leb in *.
        rewrite Qle_bool_iff in *. eapply Qle_trans; eassumption.
      * apply Sorted_reverse, isort_Sorted, Qc_leb_total.
  - induction l as [|[k [v|]] l IH]; unfold nan in *.
    + constructor.
    + rewrite filter_cons_False by discriminate. exact IH.
    + rewrite filter_cons_True by reflexivity. constructor; [exact IH|].
      apply list.Forall_forall. intros b Hb.
      apply list_elem_of_filter in Hb as [Hb _]. rewrite Hb. exact I.
Qed.

Lemma NoDup_fmap_elem_inj {A B} (f : A -> B) l x y :
  NoDup (f <$> l) -> x ∈ l -> y ∈ l -> f x = f y -> x = y.
Proof.
  induction l as [|a l IH]; intros Hnd Hx Hy E; [inversion Hx|].
  rewrite fmap_cons in Hnd. apply NoDup_cons in Hnd as [Hna Hnd].
  apply elem_of_cons in Hx as [->|Hx]; apply elem_of_cons in Hy as [->|Hy].
  - reflexivity.
  - exfalso. apply Hna. rewrite E. apply list_elem_of_fmap. eauto.
  - exfalso. apply Hna. rewrite <- E. apply list_elem_of_fmap. eauto.
  - apply IH; assumption.
Qed.

Lemma mean_ge_antisym a b : mean_ge a b -> mean_ge b a -> a = b.
Proof.
  destruct a as [x|], b as [y|]; simpl; try tauto.
  intros H1 H2. f_equal. apply Qcle_antisym; assumption.
Qed.

(** A descending series with pairwise different means is determined by
    its entries. *)
Lemma descending_unique (l target : list (string * option Qc)) :
  NoDup (snd <$> target) ->
  descending l -> descending target -> l ≡ₚ target -> l = target.
Proof.
  intros Hnd Hl Ht Hp.
  apply (StronglySorted_unique_strong
           (fun a b : string * option Qc => mean_ge a.2 b.2));
    [|exact Hl|exact Ht|exact Hp].
  intros x y Hx Hy Hxy Hyx. rewrite Hp in Hx.
  apply (NoDup_fmap_elem_inj snd target); try assumption.
  apply mean_ge_antisym; assumption.
Qed.

(** C5, as amended: [avg_temp] holds one entry per distinct city, the mean
    of the temperatures of the city; the cities enter the sort in ascending
    order of their names (not in order of first appearance); the entries
    are sorted by descending mean, a missing mean last, and the first 5 are
    kept (all of them when there are fewer).  With six cities of means 30,
    28, 25, 20, 18 and 10 the result is the five entries 30, 28, 25, 20, 18
    in that order. *)
Theorem avg_temp_top5 {D W F} (df : list (row D W F))
    (c1 c2 c3 c4 c5 c6 : string) :
  let groups := groupby_mean (group_keys df) df in
  let Z := fun z => Some (Qc_of_Z z) in
  NoDup (fst <$> groups) /\
  Sorted (fun a b => String.leb a b = true) (fst <$> groups) /\
  (forall k, k ∈ fst <$> groups <-> k ∈ city <$> df) /\
  (forall k m, (k, m) ∈ groups ->
               m = mean (group_values Temperature k df)) /\
  (exists sorted,
      sorted ≡ₚ groups /\ descending sorted /\
      avg_temp df = take 5 sorted) /\
  length (avg_temp df) = Nat.min 5 (length groups) /\
  (groups ≡ₚ [(c1, Z 30%Z); (c2, Z 28%Z); (c3, Z 25%Z);
              (c4, Z 20%Z); (c5, Z 18%Z); (c6, Z 10%Z)] ->
   avg_temp df = [(c1, Z 30%Z); (c2, Z 28%Z); (c3, Z 25%Z);
                  (c4, Z 20%Z); (c5, Z 18%Z)]).
Proof.
  intros groups Z.
  assert (Hk : fst <$> groups = group_keys df) by apply groupby_mean_keys.
  rewrite Hk. split; [apply group_keys_NoDup|].
  split; [apply group_keys_Sorted|].
  split; [intros k; apply elem_of_group_keys|].
  split.
  { intros k m Hin. unfold groups, groupby_mean in Hin.
    apply list_elem_of_fmap in Hin as (k' & [= -> ->] & _). reflexivity. }
  split.
  { exists (sort_values_descending groups).
    split; [apply sort_values_descending_Permutation|].
    split; [apply sort_values_descending_sorted|reflexivity]. }
  split.
  { unfold avg_temp. fold groups.
    rewrite length_take, (Permutation_length
                            (sort_values_descending_Permutation groups)).
    reflexivity. }
  intros Hp. unfold avg_temp. fold groups.
  rewrite (descending_unique (sort_values_descending groups)
             [(c1, Z 30%Z); (c2, Z 28%Z); (c3, Z 25%Z);
              (c4, Z 20%Z); (c5, Z 18%Z); (c6, Z 10%Z)]).
  - reflexivity.
  - subst Z. cbv beta. simpl. compute_done.
  - apply sort_values_descending_sorted.
  - unfold descending.
    repeat (constructor; [|repeat constructor; simpl; discriminate]).
    constructor.
  - rewrite sort_values_descending_Permutation. exact Hp.
Qed.

Ltac Qc_list_eq :=
  repeat match goal with
         | |- _ :: _ = _ :: _ => f_equal
         | |- (_, _) = (_, _) => f_equal
         | |- Some _ = Some _ => f_equal
         end;
  try reflexivity; apply Qc_is_canon; reflexivity.

Lemma avg_temp_top5_witness :
  avg_temp six_cities_table =
    [ ("Enugu", Some (Qc_of_Z 30)); ("Kano", Some (Qc_of_Z 28));
      ("Lagos", Some (Qc_of_Z 25)); ("Abuja", Some (Qc_of_Z 20));
      ("Jos", Some (Qc_of_Z 18)) ].
Proof.
  apply (proj2 (proj2 (proj2 (proj2 (proj2 (proj2
           (avg_temp_top5 six_cities_table
              "Enugu" "Kano" "Lagos" "Abuja" "Jos" "Ibadan"))))))).
  assert (E : sort_values_descending
                (groupby_mean (group_keys six_cities_table) six_cities_table)
              = [ ("Enugu", Some (Qc_of_Z 30)); ("Kano", Some (Qc_of_Z 28));
                  ("Lagos", Some (Qc_of_Z 25)); ("Abuja", Some (Qc_of_Z 20));
                  ("Jos", Some (Qc_of_Z 18)); ("Ibadan", Some (Qc_of_Z 10)) ]).
  { vm_compute. Qc_list_eq. }
  rewrite <- E. symmetry. apply sort_values_descending_Permutation.
Defined.

(** C5, as stated, fails: two cities with the same mean are listed in
    ascending order of their names, not in order of first appearance. *)
Lemma avg_temp_tie_not_first_seen :
  fst <$> avg_temp tie_table = ["A"; "B"] /\
  fst <$> spec_avg_temp tie_table = ["B"; "A"] /\
  avg_temp tie_table <> spec_avg_temp tie_table.
Proof.
  assert (H1 : fst <$> avg_temp tie_table = ["A"; "B"]) by reflexivity.
  assert (H2 : fst <$> spec_avg_temp tie_table = ["B"; "A"]) by reflexivity.
  repeat split; try assumption.
  intros E. rewrite E, H2 in H1. discriminate.
Qed.

(** * Further properties of the pipeline *)

(** ** Imputation *)

Lemma set_col_get_col {D W F} c (r : row D W F) :
  set_col c (get_col c r) r = r.
Proof. destruct r, c; reflexivity. Qed.

Lemma mean_is_Some (x : list (option Qc)) v :
  Some v ∈ x -> is_Some (mean x).
Proof.
  intros Hin. unfold mean.
  assert (Hv : v ∈ notna x).
  { unfold notna. apply list_elem_of_omap. exists (Some v). auto. }
  destruct (notna x); [inversion Hv|eauto].
Qed.



Lemma impute_column_filled {D W F} (c : numcol) (df df' : list (row D W F)) :
  impute c df = Ok df' ->
  Forall (fun r => is_Some (get_col c r)) df'.
Proof.
  intros H. apply list.Forall_forall. intros r' Hr'.
  apply list_elem_of_lookup_1 in Hr' as [i Hi].
  destruct (lookup_lt_is_Some_2 df i) as [r Hr].
  { rewrite <- (impute_length _ _ _ H). eapply lookup_lt_Some, Hi. }
  destruct (impute_lookup _ _ _ _ _ H Hr) as (m & _ & Hr').
  rewrite Hi in Hr'. injection Hr' as ->.
  rewrite get_col_set_col. destruct (get_col c r); simpl; eauto.
Qed.


(** X3: imputation is idempotent: imputing the column of an imputed table
    again succeeds and changes nothing. *)
Theorem impute_idempotent {D W F} (c : numcol) (df df' : list (row D W F)) :
  impute c df = Ok df' -> impute c df' = Ok df'.
Proof.
  intros H. pose proof (impute_column_filled _ _ _ H) as Hall.
  rewrite list.Forall_forall in Hall.
  destruct (impute_total c df') as [df'' H''].
  { apply list.Forall_forall. intros r Hr.
    destruct (Hall r Hr) as [v Hv].
    apply (mean_is_Some _ v). unfold group_values.
    apply list_elem_of_fmap. exists r. split; [auto|].
    apply list_elem_of_filter. auto. }
  rewrite H''. f_equal. apply list_eq. intros i.
  destruct (df' !! i) as [r|] eqn:Hi.
  - destruct (impute_lookup _ _ _ _ _ H'' Hi) as (m & _ & ->).
    destruct (Hall r (list_elem_of_lookup_2 _ _ _ Hi)) as [v Hv].
    rewrite Hv. simpl. rewrite <- Hv, set_col_get_col. reflexivity.
  - apply lookup_ge_None. rewrite (impute_length _ _ _ H'').
    apply lookup_ge_None, Hi.
Qed.








Lemma impute_idempotent_witness :
  impute Temperature half_mean_imputed = Ok half_mean_imputed.
Proof.
  exact (impute_idempotent Temperature half_mean_table half_mean_imputed
           eq_refl).
Defined.

(** ** The cleaned table *)

Lemma impute_all_no_missing {D W F} (df df3 : list (row D W F)) r :
  impute_all df = Ok df3 -> r ∈ df3 ->
  forall c, is_Some (get_col c r).
Proof.
  unfold impute_all. intros H Hr.
  destruct (impute Temperature df) as [df1|] eqn:H1; simpl in H;
    [|discriminate].
  destruct (impute Humidity df1) as [df2|] eqn:H2; simpl in H;
    [|discriminate].
  apply list_elem_of_lookup_1 in Hr as [i Hi].
  destruct (Forall2_lookup_r _ _ _ _ _ (impute_rows _ _ _ H) Hi)
    as (r2 & Hr2 & v3 & ->).
  destruct (Forall2_lookup_r _ _ _ _ _ (impute_rows _ _ _ H2) Hr2)
    as (r1 & Hr1 & v2 & ->).
  pose proof (impute_column_filled _ _ _ H1) as N1.
  pose proof (impute_column_filled _ _ _ H2) as N2.
  pose proof (impute_column_filled _ _ _ H) as N3.
  rewrite list.Forall_forall in N1, N2, N3.
  specialize (N1 _ (list_elem_of_lookup_2 _ _ _ Hr1)).
  specialize (N2 _ (list_elem_of_lookup_2 _ _ _ Hr2)).
  specialize (N3 _ (list_elem_of_lookup_2 _ _ _ Hi)).
  intros [| |]; [exact N1|exact N2|exact N3].
Qed.

Lemma clean_rows_have_numbers
    (in_bounds : Timestamp -> bool) (df : list raw_row)
    (out : list clean_row) (r : clean_row) :
  clean_weather_data in_bounds df = Ok out ->
  r ∈ out ->
  is_Some (temperature_celsius r) /\ is_Some (humidity_percent r) /\
  is_Some (wind_speed_kph r) /\ is_Some (temperature_fahrenheit r).
Proof.
  rewrite clean_weather_data_stages. intros H Hr.
  destruct (impute_all df) as [df3|] eqn:H3; simpl in H; [|discriminate].
  destruct (apply_date_parser_Ok in_bounds (dropna df3)) as (df5 & H5 & R5).
  rewrite H5 in H. simpl in H. injection H as <-.
  apply list_elem_of_filter in Hr as [_ Hr].
  apply list_elem_of_fmap in Hr as (x & -> & Hx).
  apply list_elem_of_fmap in Hx as (y & -> & Hy).
  apply list_elem_of_lookup_1 in Hy as [i Hi].
  destruct (Forall2_lookup_r _ _ _ _ _ R5 Hi) as (z & Hz & d & _ & ->).
  apply list_elem_of_lookup_2 in Hz. unfold dropna in Hz.
  apply list_elem_of_filter in Hz as [_ Hz].
  pose proof (impute_all_no_missing _ _ _ H3 Hz) as N.
  pose proof (N Temperature) as [t Ht]. simpl in *.
  repeat split; [apply (N Temperature)|apply (N Humidity)|apply (N Wind)|].
  rewrite Ht. simpl. eauto.
Qed.



Lemma Forall2_fmap_eq {A B C} (f : A -> C) (g : B -> C) (R : A -> B -> Prop)
    l k :
  Forall2 R l k -> (forall x y, R x y -> f x = g y) -> f <$> l = g <$> k.
Proof.
  intros H HR. induction H as [|x y l k Hxy _ IH]; [reflexivity|].
  rewrite !fmap_cons, IH, (HR x y Hxy). reflexivity.
Qed.

(** X6: cleaning only removes rows: the cities and normalised weather
    conditions of the cleaned table, in order, are a sublist of those of
    the raw table, so no row is added, duplicated or moved. *)
Theorem clean_weather_data_only_removes_rows
    (in_bounds : Timestamp -> bool) (df : list raw_row)
    (out : list clean_row) :
  clean_weather_data in_bounds df = Ok out ->
  ((fun r : clean_row => (city r, weather_condition r)) <$> out)
    `sublist_of`
  ((fun r : raw_row =>
      (city r, convert_to_string_and_capitalize (weather_condition r)))
     <$> df) /\
  (length out <= length df)%nat.
Proof.
  intros H.
  assert (Hall : forall c, every_group_has_value c df).
  { apply (clean_weather_data_returns_iff in_bounds). eauto. }
  destruct (clean_weather_data_total in_bounds df Hall) as (out' & H' & HR).
  assert (out' = out) by congruence. subst out'.
  assert (S : ((fun r : clean_row => (city r, weather_condition r)) <$> out)
                `sublist_of`
              ((fun r : raw_row =>
                  (city r,
                   convert_to_string_and_capitalize (weather_condition r)))
                 <$> df)).
  { rewrite <- (Forall2_fmap_eq
                  (fun r : raw_row =>
                     (city r,
                      convert_to_string_and_capitalize (weather_condition r)))
                  (fun r : clean_row => (city r, weather_condition r))
                  _ _ _ HR).
    - apply fmap_sublist. etransitivity; [apply sublist_filter|].
      apply sublist_filter.
    - intros x y (-> & _ & -> & _). reflexivity. }
  split; [exact S|].
  apply sublist_length in S. rewrite !length_fmap in S. exact S.
Qed.

Lemma clean_weather_data_only_removes_rows_witness :
  (length
     [ mkRow "Lagos" None "Sunny"
             (Some (Qc_of_Z 31)) (Some (Qc_of_Z 70)) (Some (Qc_of_Z 12))
             (fahrenheit (Some (Qc_of_Z 31)));
       mkRow "Lagos" (Some (mkTimestamp 2024 5 1)) "Rain"
             (Some (Qc_of_Z 31)) (Some (Qc_of_Z 80)) (Some (Qc_of_Z 12))
             (fahrenheit (Some (Qc_of_Z 31))) : clean_row ]
   <= length unparsed_date_table)%nat.
Proof.
  exact (proj2 (clean_weather_data_only_removes_rows ns_bounds
                  unparsed_date_table _ eq_refl)).
Defined.




(** ** The category normaliser, continued *)










Lemma casefold_eq_nil s : casefold s = "" -> s = "".
Proof. destruct s; [reflexivity|discriminate]. Qed.









(** ** The date parser, continued *)

Lemma to_datetime_Some_valid in_bounds arg format t :
  to_datetime in_bounds arg format = Ok (Some t) ->
  Strptime.valid_date t = true /\ in_bounds t = true.
Proof.
  unfold to_datetime.
  destruct (_ || _); [discriminate|].
  destruct (Strptime.re_match _ _ _) as [[t' rest]|]; [|discriminate].
  destruct (negb (bool_decide _)); [discriminate|].
  destruct (Strptime.valid_date t') eqn:Hv; simpl; [|discriminate].
  destruct (in_bounds t') eqn:Hb; simpl; [|discriminate].
  intros [= <-]. auto.
Qed.

(** X11: a date the parser returns is a date of the calendar (the month
    is between 1 and 12 and the day exists in that month and year) and
    lies in the range of [Timestamp]. *)
Theorem custom_date_parser_returns_valid_date
    (in_bounds : Timestamp -> bool) (date : string) (t : Timestamp) :
  custom_date_parser in_bounds date = Ok (Some t) ->
  Strptime.valid_date t = true /\ in_bounds t = true /\
  1 <= month t <= 12 /\
  1 <= day t <= Strptime.days_in_month (year t) (month t).
Proof.
  intros H.
  assert (Hv : Strptime.valid_date t = true /\ in_bounds t = true).
  { destruct (try_formats_first in_bounds date_formats date)
      as [(pre & fmt & post & v & _ & _ & Hf & Hp)|[_ Hp]];
      unfold custom_date_parser in H; rewrite Hp in H; [|discriminate].
    injection H as ->. eapply to_datetime_Some_valid, Hf. }
  destruct Hv as [Hv Hb]. repeat split; try assumption;
    unfold Strptime.valid_date in Hv;
    rewrite !andb_true_iff, !N.leb_le in Hv; tauto.
Qed.

Lemma custom_date_parser_returns_valid_date_witness :
  Strptime.valid_date (mkTimestamp 2020 1 2) = true.
Proof.
  exact (proj1 (custom_date_parser_returns_valid_date ns_bounds "01/02/2020"
                  (mkTimestamp 2020 1 2) eq_refl)).
Defined.

Lemma separator_not_digit sep : is_separator sep -> Py.isdigit sep = false.
Proof. intros [->|[->| ->]]; reflexivity. Qed.

(** A zero-padded day or month followed by the separator the format
    expects. *)
Lemma re_match_field d sep v toks rest acc :
  (d = "d"%char /\ 1 <= v <= 31) \/ (d = "m"%char /\ 1 <= v <= 12) ->
  is_separator sep ->
  Strptime.re_match (Strptime.Directive d :: Strptime.Literal sep :: toks)
                    (pad2 v ++ String sep rest)%string acc =
  Strptime.re_match toks rest (Strptime.store d v acc).
Proof.
  intros Hd Hsep.
  destruct Hd as [[-> Hv]|[-> Hv]];
    erewrite re_match_directive by reflexivity;
    cbn [Strptime.re_match];
    generalize (Strptime.re_match toks); intros K;
    destruct Hsep as [->|[->| ->]];
    small_N v; vm_compute; destruct (K rest _); reflexivity.
Qed.

(** A month field cannot read a number above 12. *)
Lemma re_match_month_overflow sep v toks rest acc :
  13 <= v <= 31 -> is_separator sep ->
  Strptime.re_match (Strptime.Directive "m" :: Strptime.Literal sep :: toks)
                    (pad2 v ++ String sep rest)%string acc = None.
Proof.
  intros Hv Hsep.
  erewrite re_match_directive by reflexivity.
  cbn [Strptime.re_match].
  generalize (Strptime.re_match toks). intros K.
  destruct Hsep as [->|[->| ->]]; small_N v; vm_compute; reflexivity.
Qed.

Lemma short_alt_then_mismatch (alt : list Strptime.charclass)
    (sep c1 c2 c3 : ascii) toks rest (k : string -> Timestamp) :
  (length alt = 1 \/ length alt = 2)%nat ->
  Ascii.eqb sep c2 = false -> Ascii.eqb sep c3 = false ->
  match Strptime.match_alt alt (String c1 (String c2 (String c3 rest))) with
  | Some (txt, rest') =>
      Strptime.re_match (Strptime.Literal sep :: toks) rest' (k txt)
  | None => None
  end = None.
Proof.
  intros Hlen E2 E3.
  destruct alt as [|a [|b [|? ?]]]; simpl in Hlen;
    try (exfalso; lia).
  - cbn [Strptime.match_alt]. destruct (a c1); [|reflexivity].
    cbn [Strptime.re_match]. rewrite E2. reflexivity.
  - cbn [Strptime.match_alt]. destruct (a c1); [|reflexivity].
    destruct (b c2); [|reflexivity].
    cbn [Strptime.re_match]. rewrite E3. reflexivity.
Qed.

(** A day or month field followed by a separator other than the one the
    format expects. *)
Lemma re_match_wrong_separator d sep sep' v toks rest acc :
  d = "d"%char \/ d = "m"%char ->
  is_separator sep -> sep <> sep' -> v < 100 ->
  Strptime.re_match (Strptime.Directive d :: Strptime.Literal sep :: toks)
                    (pad2 v ++ String sep' rest)%string acc = None.
Proof.
  intros Hd Hsep Hne Hv. unfold pad2. rewrite !append_cons, append_nil_l.
  assert (E2 : Ascii.eqb sep (digit_char (v mod 10)) = false).
  { apply eqb_not_digit; [|apply separator_not_digit, Hsep].
    apply isdigit_digit_char, N.mod_lt. lia. }
  assert (E3 : Ascii.eqb sep sep' = false) by (apply Ascii.eqb_neq, Hne).
  destruct Hd as [-> | ->];
    erewrite re_match_directive by reflexivity;
    apply first_match_None;
    repeat constructor;
    apply (short_alt_then_mismatch _ _ _ _ _ _ _
             (fun txt => Strptime.store _ (Strptime.int txt) acc));
    simpl; auto.
Qed.

(** A year field needs four digits. *)
Lemma re_match_year_short c1 c2 c3 toks rest acc :
  Py.isdigit c3 = false ->
  Strptime.re_match (Strptime.Directive "Y" :: toks)
                    (String c1 (String c2 (String c3 rest))) acc = None.
Proof.
  intros H3. erewrite re_match_directive by reflexivity.
  cbn [Strptime.first_match Strptime.match_alt].
  destruct (Py.isdigit c1); [|reflexivity].
  destruct (Py.isdigit c2); [|reflexivity].
  rewrite H3. reflexivity.
Qed.

Lemma append_nil_r (s : string) : (s ++ "")%string = s.
Proof. induction s; [reflexivity|]. rewrite append_cons. congruence. Qed.

Lemma re_match_year_end y acc :
  y < 10000 ->
  Strptime.re_match [Strptime.Directive "Y"] (pad4 y) acc =
  Some (Strptime.store "Y" y acc, "").
Proof.
  intros Hy. rewrite <- (append_nil_r (pad4 y)).
  rewrite re_match_year by exact Hy. reflexivity.
Qed.

Lemma to_datetime_no_match in_bounds c s format :
  Py.isdigit c = true ->
  Strptime.re_match (Strptime.tokenize format) (String c s)
                    Strptime.default_fields = None ->
  to_datetime in_bounds (String c s) format = Raise ValueError.
Proof.
  intros Hc H. rewrite to_datetime_digit_start by exact Hc.
  rewrite H. reflexivity.
Qed.

Lemma to_datetime_match in_bounds c s format t :
  Py.isdigit c = true ->
  Strptime.re_match (Strptime.tokenize format) (String c s)
                    Strptime.default_fields = Some (t, "") ->
  Strptime.valid_date t = true -> in_bounds t = true ->
  to_datetime in_bounds (String c s) format = Ok (Some t).
Proof.
  intros Hc H Hv Hb. rewrite to_datetime_digit_start by exact Hc.
  rewrite H. cbn [negb bool_decide]. rewrite Hv, Hb. reflexivity.
Qed.

Ltac tokens :=
  repeat match goal with
         | |- context [Strptime.tokenize ?f] =>
             let r := eval vm_compute in (Strptime.tokenize f) in
             change (Strptime.tokenize f) with r
         end.

Lemma starts_with_digit_pad2 v r :
  v < 100 -> starts_with_digit (pad2 v ++ r)%string = true.
Proof.
  intros Hv. unfold pad2. rewrite append_cons. simpl.
  apply isdigit_digit_char, N.Div0.div_lt_upper_bound. lia.
Qed.

Lemma starts_with_digit_pad4 y r :
  y < 10000 -> starts_with_digit (pad4 y ++ r)%string = true.
Proof.
  intros Hv. unfold pad4. rewrite append_cons. simpl.
  apply isdigit_digit_char, N.Div0.div_lt_upper_bound. lia.
Qed.

Lemma to_datetime_fails in_bounds s format :
  starts_with_digit s = true ->
  Strptime.re_match (Strptime.tokenize format) s Strptime.default_fields
  = None ->
  to_datetime in_bounds s format = Raise ValueError.
Proof.
  destruct s as [|c s]; [discriminate|]. apply to_datetime_no_match.
Qed.

Lemma to_datetime_succeeds in_bounds s format t :
  starts_with_digit s = true ->
  Strptime.re_match (Strptime.tokenize format) s Strptime.default_fields
  = Some (t, "") ->
  Strptime.valid_date t = true -> in_bounds t = true ->
  to_datetime in_bounds s format = Ok (Some t).
Proof.
  destruct s as [|c s]; [discriminate|]. apply to_datetime_match.
Qed.

(** Two fields and a year, read in the order the format names them. *)
Lemma re_match_two_fields (d1 d2 sep : ascii) (a b y : N) acc :
  (d1 = "d"%char /\ 1 <= a <= 31) \/ (d1 = "m"%char /\ 1 <= a <= 12) ->
  (d2 = "d"%char /\ 1 <= b <= 31) \/ (d2 = "m"%char /\ 1 <= b <= 12) ->
  is_separator sep -> y < 10000 ->
  Strptime.re_match
    [Strptime.Directive d1; Strptime.Literal sep; Strptime.Directive d2;
     Strptime.Literal sep; Strptime.Directive "Y"]
    (pad2 a ++ String sep (pad2 b ++ String sep (pad4 y)))%string acc
  = Some (Strptime.store "Y" y (Strptime.store d2 b (Strptime.store d1 a acc)),
          "").
Proof.
  intros H1 H2 Hsep Hy.
  rewrite re_match_field by assumption.
  rewrite re_match_field by assumption.
  apply re_match_year_end, Hy.
Qed.

(** The same string under a format whose second field is a month, when
    the second number is above 12. *)
Lemma re_match_second_overflow (d1 sep : ascii) (a b : N) rest toks acc :
  (d1 = "d"%char /\ 1 <= a <= 31) \/ (d1 = "m"%char /\ 1 <= a <= 12) ->
  13 <= b <= 31 -> is_separator sep ->
  Strptime.re_match
    (Strptime.Directive d1 :: Strptime.Literal sep :: Strptime.Directive "m"
     :: Strptime.Literal sep :: toks)
    (pad2 a ++ String sep (pad2 b ++ String sep rest))%string acc
  = None.
Proof.
  intros H1 Hb Hsep.
  rewrite re_match_field by assumption.
  apply re_match_month_overflow; assumption.
Qed.

Lemma re_match_year_first_field_string a r toks acc :
  forall sep, is_separator sep ->
  Strptime.re_match (Strptime.Directive "Y" :: toks)
                    (pad2 a ++ String sep r)%string acc = None.
Proof.
  intros sep Hsep. unfold pad2. rewrite !append_cons, append_nil_l.
  apply re_match_year_short, separator_not_digit, Hsep.
Qed.

(** Day-first strings with dashes or dots: the first or the second format
    reads them. *)
Lemma parse_dmy in_bounds sep t :
  sep = "-"%char \/ sep = "."%char ->
  Strptime.valid_date t = true -> in_bounds t = true ->
  custom_date_parser in_bounds (strftime_dmy sep t) = Ok (Some t).
Proof.
  intros Hsep Hv Hb.
  destruct (valid_date_bounds t Hv) as (Hy & Hm & Hd).
  assert (Hs : starts_with_digit (strftime_dmy sep t) = true)
    by (apply starts_with_digit_pad2; lia).
  assert (M : forall s, s = sep -> is_separator s ->
              Strptime.re_match
                [Strptime.Directive "d"; Strptime.Literal s;
                 Strptime.Directive "m"; Strptime.Literal s;
                 Strptime.Directive "Y"]
                (strftime_dmy sep t) Strptime.default_fields = Some (t, "")).
  { intros s -> Hs'. unfold strftime_dmy.
    rewrite re_match_two_fields by (auto; lia). destruct t; reflexivity. }
  unfold custom_date_parser, date_formats. cbn [try_formats].
  destruct Hsep as [-> | ->].
  - rewrite (to_datetime_succeeds in_bounds _ "%d-%m-%Y" t Hs); auto.
    apply M; [reflexivity|left; reflexivity].
  - rewrite (to_datetime_fails in_bounds _ "%d-%m-%Y" Hs).
    2: { tokens. unfold strftime_dmy.
         apply re_match_wrong_separator;
           [auto|left; reflexivity|discriminate|lia]. }
    rewrite (to_datetime_succeeds in_bounds _ "%d.%m.%Y" t Hs); auto.
    apply M; [reflexivity|right; left; reflexivity].
Qed.

Ltac sep_goal :=
  first [ left; reflexivity | right; left; reflexivity
        | right; right; reflexivity ].

Ltac wrong_separator :=
  tokens; unfold strftime_dmy, strftime_mdy;
  apply re_match_wrong_separator; [auto|sep_goal|discriminate|lia].

Ltac year_first_format :=
  tokens; unfold strftime_dmy, strftime_mdy;
  apply re_match_year_first_field_string; sep_goal.

(** Month-first strings with slashes: the third format reads them. *)
Lemma parse_mdy_slash in_bounds t :
  Strptime.valid_date t = true -> in_bounds t = true ->
  custom_date_parser in_bounds (strftime_mdy "/" t) = Ok (Some t).
Proof.
  intros Hv Hb.
  destruct (valid_date_bounds t Hv) as (Hy & Hm & Hd).
  assert (Hs : starts_with_digit (strftime_mdy "/" t) = true)
    by (apply starts_with_digit_pad2; lia).
  unfold custom_date_parser, date_formats. cbn [try_formats].
  rewrite (to_datetime_fails in_bounds _ "%d-%m-%Y" Hs) by wrong_separator.
  rewrite (to_datetime_fails in_bounds _ "%d.%m.%Y" Hs) by wrong_separator.
  rewrite (to_datetime_succeeds in_bounds _ "%m/%d/%Y" t Hs); auto.
  tokens. unfold strftime_mdy.
  rewrite re_match_two_fields by (auto; try sep_goal; lia).
  destruct t; reflexivity.
Qed.

(** Day-first strings with slashes and a day above 12: the third format
    cannot read the day as a month, and the fifth format reads them. *)
Lemma parse_dmy_slash_late in_bounds t :
  Strptime.valid_date t = true -> in_bounds t = true -> 12 < day t ->
  custom_date_parser in_bounds (strftime_dmy "/" t) = Ok (Some t).
Proof.
  intros Hv Hb Hlate.
  destruct (valid_date_bounds t Hv) as (Hy & Hm & Hd).
  assert (Hs : starts_with_digit (strftime_dmy "/" t) = true)
    by (apply starts_with_digit_pad2; lia).
  unfold custom_date_parser, date_formats. cbn [try_formats].
  rewrite (to_datetime_fails in_bounds _ "%d-%m-%Y" Hs) by wrong_separator.
  rewrite (to_datetime_fails in_bounds _ "%d.%m.%Y" Hs) by wrong_separator.
  rewrite (to_datetime_fails in_bounds _ "%m/%d/%Y" Hs).
  2: { tokens. unfold strftime_dmy.
       apply re_match_month_overflow; [lia|sep_goal]. }
  rewrite (to_datetime_fails in_bounds _ "%Y-%m-%d" Hs)
    by year_first_format.
  rewrite (to_datetime_succeeds in_bounds _ "%d/%m/%Y" t Hs); auto.
  tokens. unfold strftime_dmy.
  rewrite re_match_two_fields by (auto; try sep_goal; lia).
  destruct t; reflexivity.
Qed.

(** Month-first strings with dashes or dots and a day above 12: the
    day-first format of the same separator cannot read the day as a month,
    and the sixth or the seventh format reads them. *)
Lemma parse_mdy_late in_bounds sep t :
  sep = "-"%char \/ sep = "."%char ->
  Strptime.valid_date t = true -> in_bounds t = true -> 12 < day t ->
  custom_date_parser in_bounds (strftime_mdy sep t) = Ok (Some t).
Proof.
  intros Hsep Hv Hb Hlate.
  destruct (valid_date_bounds t Hv) as (Hy & Hm & Hd).
  assert (Hs : starts_with_digit (strftime_mdy sep t) = true)
    by (apply starts_with_digit_pad2; lia).
  unfold custom_date_parser, date_formats. cbn [try_formats].
  destruct Hsep as [-> | ->].
  - rewrite (to_datetime_fails in_bounds _ "%d-%m-%Y" Hs).
    2: { tokens. unfold strftime_mdy.
         apply re_match_second_overflow; [left; split; [reflexivity|lia]|lia|sep_goal]. }
    rewrite (to_datetime_fails in_bounds _ "%d.%m.%Y" Hs) by wrong_separator.
    rewrite (to_datetime_fails in_bounds _ "%m/%d/%Y" Hs) by wrong_separator.
    rewrite (to_datetime_fails in_bounds _ "%Y-%m-%d" Hs)
      by year_first_format.
    rewrite (to_datetime_fails in_bounds _ "%d/%m/%Y" Hs) by wrong_separator.
    rewrite (to_datetime_succeeds in_bounds _ "%m-%d-%Y" t Hs); auto.
    tokens. unfold strftime_mdy.
    rewrite re_match_two_fields by (auto; try sep_goal; lia).
    destruct t; reflexivity.
  - rewrite (to_datetime_fails in_bounds _ "%d-%m-%Y" Hs) by wrong_separator.
    rewrite (to_datetime_fails in_bounds _ "%d.%m.%Y" Hs).
    2: { tokens. unfold strftime_mdy.
         apply re_match_second_overflow; [left; split; [reflexivity|lia]|lia|sep_goal]. }
    rewrite (to_datetime_fails in_bounds _ "%m/%d/%Y" Hs) by wrong_separator.
    rewrite (to_datetime_fails in_bounds _ "%Y-%m-%d" Hs)
      by year_first_format.
    rewrite (to_datetime_fails in_bounds _ "%d/%m/%Y" Hs) by wrong_separator.
    rewrite (to_datetime_fails in_bounds _ "%m-%d-%Y" Hs) by wrong_separator.
    rewrite (to_datetime_succeeds in_bounds _ "%m.%d.%Y" t Hs); auto.
    tokens. unfold strftime_mdy.
    rewrite re_match_two_fields by (auto; try sep_goal; lia).
    destruct t; reflexivity.
Qed.

Lemma re_match_literal_mismatch c c' toks s acc :
  Ascii.eqb c c' = false ->
  Strptime.re_match (Strptime.Literal c :: toks) (String c' s) acc = None.
Proof. intros E. cbn [Strptime.re_match]. rewrite E. reflexivity. Qed.

Lemma year_first_string_day_first d sep y r toks acc :
  d = "d"%char \/ d = "m"%char -> is_separator sep -> y < 10000 ->
  Strptime.re_match (Strptime.Directive d :: Strptime.Literal sep :: toks)
                    (pad4 y ++ r)%string acc = None.
Proof.
  intros Hd Hsep Hy. unfold pad4. rewrite !append_cons.
  apply day_first_fails;
    [exact Hd|apply separator_not_digit, Hsep| |];
    apply isdigit_digit_char, N.mod_lt; lia.
Qed.

Ltac day_first_format :=
  tokens; unfold strftime_ymd;
  apply year_first_string_day_first; [auto|sep_goal|lia].

(** Year-first strings with dots or slashes: the eighth or the ninth
    format reads them. *)
Lemma parse_ymd in_bounds sep t :
  sep = "."%char \/ sep = "/"%char ->
  Strptime.valid_date t = true -> in_bounds t = true ->
  custom_date_parser in_bounds (strftime_ymd sep t) = Ok (Some t).
Proof.
  intros Hsep Hv Hb.
  destruct (valid_date_bounds t Hv) as (Hy & Hm & Hd).
  assert (Hs : starts_with_digit (strftime_ymd sep t) = true)
    by (apply starts_with_digit_pad4; lia).
  assert (M : forall s, s = sep -> is_separator s ->
              Strptime.re_match
                [Strptime.Directive "Y"; Strptime.Literal s;
                 Strptime.Directive "m"; Strptime.Literal s;
                 Strptime.Directive "d"]
                (strftime_ymd sep t) Strptime.default_fields = Some (t, "")).
  { intros s -> Hs'. unfold strftime_ymd.
    rewrite re_match_year by lia. rewrite re_match_literal.
    rewrite re_match_field by (auto; lia).
    rewrite re_match_day by lia. destruct t; reflexivity. }
  assert (N4 : Strptime.re_match (Strptime.tokenize "%Y-%m-%d")
                 (strftime_ymd sep t) Strptime.default_fields = None).
  { tokens. unfold strftime_ymd. rewrite re_match_year by lia.
    apply re_match_literal_mismatch. destruct Hsep as [-> | ->]; reflexivity. }
  unfold custom_date_parser, date_formats. cbn [try_formats].
  rewrite (to_datetime_fails in_bounds _ "%d-%m-%Y" Hs) by day_first_format.
  rewrite (to_datetime_fails in_bounds _ "%d.%m.%Y" Hs) by day_first_format.
  rewrite (to_datetime_fails in_bounds _ "%m/%d/%Y" Hs) by day_first_format.
  rewrite (to_datetime_fails in_bounds _ "%Y-%m-%d" Hs N4).
  rewrite (to_datetime_fails in_bounds _ "%d/%m/%Y" Hs) by day_first_format.
  rewrite (to_datetime_fails in_bounds _ "%m-%d-%Y" Hs) by day_first_format.
  rewrite (to_datetime_fails in_bounds _ "%m.%d.%Y" Hs) by day_first_format.
  destruct Hsep as [-> | ->].
  - rewrite (to_datetime_succeeds in_bounds _ "%Y.%m.%d" t Hs); auto.
    apply M; [reflexivity|sep_goal].
  - rewrite (to_datetime_fails in_bounds _ "%Y.%m.%d" Hs).
    2: { tokens. unfold strftime_ymd. rewrite re_match_year by lia.
         apply re_match_literal_mismatch. reflexivity. }
    rewrite (to_datetime_succeeds in_bounds _ "%Y/%m/%d" t Hs); auto.
    apply M; [reflexivity|sep_goal].
Qed.

Lemma swap_day_month_valid t :
  Strptime.valid_date t = true -> day t <= 12 ->
  Strptime.valid_date (swap_day_month t) = true.
Proof.
  intros Hv Hd. destruct (valid_date_bounds t Hv) as (Hy & Hm & Hd').
  unfold Strptime.valid_date, swap_day_month, Strptime.days_in_month. simpl.
  rewrite !andb_true_iff, !N.leb_le.
  repeat split; try lia.
  destruct (day t =? 2); [destruct (Strptime.is_leap _); lia|].
  destruct (_ || _); lia.
Qed.

(** X12: a zero-padded day-month-year string with dashes or dots is read
    back as the date it was written from. *)
Theorem custom_date_parser_day_first_round_trip
    (in_bounds : Timestamp -> bool) (sep : ascii) (t : Timestamp) :
  sep = "-"%char \/ sep = "."%char ->
  Strptime.valid_date t = true -> in_bounds t = true ->
  custom_date_parser in_bounds (strftime_dmy sep t) = Ok (Some t).
Proof. apply parse_dmy. Qed.

Lemma custom_date_parser_day_first_round_trip_witness :
  custom_date_parser ns_bounds "05.03.2021" = Ok (Some (mkTimestamp 2021 3 5)).
Proof.
  exact (custom_date_parser_day_first_round_trip ns_bounds "."
           (mkTimestamp 2021 3 5) (or_intror eq_refl) eq_refl eq_refl).
Defined.

(** X13: a zero-padded month/day/year string with slashes is read back as
    the date it was written from. *)
Theorem custom_date_parser_slash_month_first
    (in_bounds : Timestamp -> bool) (t : Timestamp) :
  Strptime.valid_date t = true -> in_bounds t = true ->
  custom_date_parser in_bounds (strftime_mdy "/" t) = Ok (Some t).
Proof. apply parse_mdy_slash. Qed.

Lemma custom_date_parser_slash_month_first_witness :
  custom_date_parser ns_bounds "03/05/2021" = Ok (Some (mkTimestamp 2021 3 5)).
Proof.
  exact (custom_date_parser_slash_month_first ns_bounds
           (mkTimestamp 2021 3 5) eq_refl eq_refl).
Defined.

(** X14: the fifth, sixth and seventh formats are reached only by a day
    above 12; with such a day, day/month/year with slashes and
    month-day-year with dashes or dots are read back as the date they were
    written from. *)
Theorem custom_date_parser_late_day_formats
    (in_bounds : Timestamp -> bool) (t : Timestamp) :
  Strptime.valid_date t = true -> in_bounds t = true -> 12 < day t ->
  custom_date_parser in_bounds (strftime_dmy "/" t) = Ok (Some t) /\
  custom_date_parser in_bounds (strftime_mdy "-" t) = Ok (Some t) /\
  custom_date_parser in_bounds (strftime_mdy "." t) = Ok (Some t).
Proof.
  intros Hv Hb Hd. split; [apply parse_dmy_slash_late; assumption|].
  split; apply parse_mdy_late; auto.
Qed.

Lemma custom_date_parser_late_day_formats_witness :
  custom_date_parser ns_bounds "25/12/2021" = Ok (Some (mkTimestamp 2021 12 25)).
Proof.
  exact (proj1 (custom_date_parser_late_day_formats ns_bounds
                  (mkTimestamp 2021 12 25) eq_refl eq_refl eq_refl)).
Defined.

(** X15: a zero-padded year-month-day string with dots or slashes is read
    back as the date it was written from. *)
Theorem custom_date_parser_year_first_round_trip
    (in_bounds : Timestamp -> bool) (sep : ascii) (t : Timestamp) :
  sep = "."%char \/ sep = "/"%char ->
  Strptime.valid_date t = true -> in_bounds t = true ->
  custom_date_parser in_bounds (strftime_ymd sep t) = Ok (Some t).
Proof. apply parse_ymd. Qed.

Lemma custom_date_parser_year_first_round_trip_witness :
  custom_date_parser ns_bounds "2021/03/05" = Ok (Some (mkTimestamp 2021 3 5)).
Proof.
  exact (custom_date_parser_year_first_round_trip ns_bounds "/"
           (mkTimestamp 2021 3 5) (or_intror eq_refl) eq_refl eq_refl).
Defined.

(** X16: with a day of at most 12 the order of the formats decides: a
    day/month/year string with slashes, and a month-day-year string with
    dashes or dots, is read with day and month exchanged. *)
Theorem custom_date_parser_exchanges_day_and_month
    (in_bounds : Timestamp -> bool) (t : Timestamp) :
  Strptime.valid_date t = true -> day t <= 12 ->
  in_bounds (swap_day_month t) = true ->
  custom_date_parser in_bounds (strftime_dmy "/" t)
    = Ok (Some (swap_day_month t)) /\
  custom_date_parser in_bounds (strftime_mdy "-" t)
    = Ok (Some (swap_day_month t)) /\
  custom_date_parser in_bounds (strftime_mdy "." t)
    = Ok (Some (swap_day_month t)).
Proof.
  intros Hv Hd Hb.
  pose proof (swap_day_month_valid t Hv Hd) as Hv'.
  change (strftime_dmy "/" t) with (strftime_mdy "/" (swap_day_month t)).
  change (strftime_mdy "-" t) with (strftime_dmy "-" (swap_day_month t)).
  change (strftime_mdy "." t) with (strftime_dmy "." (swap_day_month t)).
  split; [apply parse_mdy_slash; assumption|].
  split; apply parse_dmy; auto.
Qed.

Lemma custom_date_parser_exchanges_day_and_month_witness :
  custom_date_parser ns_bounds "05/03/2021" = Ok (Some (mkTimestamp 2021 5 3)).
Proof.
  exact (proj1 (custom_date_parser_exchanges_day_and_month ns_bounds
                  (mkTimestamp 2021 3 5) eq_refl
                  ltac:(vm_compute; discriminate) eq_refl)).
Defined.

(** ** The report and the chart *)

Lemma avg_temp_cities_NoDup {D W F} (df : list (row D W F)) :
  NoDup (fst <$> avg_temp df).
Proof.
  unfold avg_temp. rewrite fmap_take.
  eapply sublist_NoDup; [|apply sublist_take].
  rewrite sort_values_descending_Permutation, groupby_mean_keys.
  apply group_keys_NoDup.
Qed.

(** X17: the report ranks correctly: every city that [avg_temp] leaves out
    has a mean that is not above the mean of any city it lists (or has no
    mean at all), and no city is listed twice. *)
Theorem avg_temp_lists_the_largest {D W F} (df : list (row D W F))
    (a b : string * option Qc) :
  a ∈ avg_temp df ->
  b ∈ groupby_mean (group_keys df) df ->
  b ∉ avg_temp df ->
  mean_ge a.2 b.2 /\ NoDup (fst <$> avg_temp df).
Proof.
  intros Ha Hb Hnb. split; [|apply avg_temp_cities_NoDup].
  unfold avg_temp in *.
  set (groups := groupby_mean (group_keys df) df) in *.
  set (sorted := sort_values_descending groups) in *.
  assert (Hp : sorted ≡ₚ groups) by apply sort_values_descending_Permutation.
  pose proof (sort_values_descending_sorted groups) as Hs.
  fold sorted in Hs. unfold descending in Hs.
  rewrite <- (take_drop 5 sorted) in Hs.
  apply (StronglySorted_app_1_elem_of _ _ _ a b Hs Ha).
  rewrite <- Hp, <- (take_drop 5 sorted) in Hb.
  apply elem_of_app in Hb as [Hb|Hb]; [contradiction|exact Hb].
Qed.

Lemma avg_temp_lists_the_largest_witness :
  mean_ge (mean (group_values Temperature "Jos" six_cities_table))
          (mean (group_values Temperature "Ibadan" six_cities_table)).
Proof.
  refine (proj1 (avg_temp_lists_the_largest six_cities_table
                   ("Jos", mean (group_values Temperature "Jos"
                                              six_cities_table))
                   ("Ibadan", mean (group_values Temperature "Ibadan"
                                                 six_cities_table))
                   _ _ _)).
  - vm_compute. do 4 right. left.
  - vm_compute. do 2 right. left.
  - vm_compute. intros H.
    repeat (apply elem_of_cons in H as [H|H]; [discriminate H|]).
    inversion H.
Defined.

(** X18: with at most five cities the report lists every city, each once:
    [avg_temp] is a rearrangement of the per-city means. *)
Theorem avg_temp_lists_all_of_few {D W F} (df : list (row D W F)) :
  (length (group_keys df) <= 5)%nat ->
  avg_temp df ≡ₚ groupby_mean (group_keys df) df /\
  fst <$> avg_temp df ≡ₚ group_keys df.
Proof.
  intros Hlen.
  assert (E : avg_temp df ≡ₚ groupby_mean (group_keys df) df).
  { unfold avg_temp. rewrite take_ge.
    - apply sort_values_descending_Permutation.
    - rewrite (Permutation_length
                 (sort_values_descending_Permutation _)).
      unfold groupby_mean. rewrite length_fmap. exact Hlen. }
  split; [exact E|]. rewrite E. rewrite groupby_mean_keys. reflexivity.
Qed.

Lemma avg_temp_lists_all_of_few_witness :
  fst <$> avg_temp tie_table ≡ₚ group_keys tie_table.
Proof.
  refine (proj2 (avg_temp_lists_all_of_few tie_table _)).
  vm_compute. lia.
Defined.

(** X19: the report of a cleaned table has no missing mean, and the cities
    it lists are cities of the table. *)
Theorem avg_temp_of_cleaned_table
    (in_bounds : Timestamp -> bool) (df : list raw_row)
    (out : list clean_row) (k : string) (m : option Qc) :
  clean_weather_data in_bounds df = Ok out ->
  (k, m) ∈ avg_temp out ->
  is_Some m /\ k ∈ city <$> out /\ k ∈ city <$> df.
Proof.
  intros H Hin. unfold avg_temp in Hin.
  apply elem_of_take in Hin as (i0 & Hin & _).
  apply list_elem_of_lookup_2 in Hin.
  rewrite sort_values_descending_Permutation in Hin.
  unfold groupby_mean in Hin.
  apply list_elem_of_fmap in Hin as (k' & [= -> ->] & Hk).
  apply elem_of_group_keys in Hk.
  pose proof Hk as Hk'.
  apply list_elem_of_fmap in Hk' as (r & -> & Hr).
  split; [|split; [exact Hk|]].
  - destruct (clean_rows_have_numbers in_bounds df out r H Hr)
      as ([t Ht] & _).
    apply (mean_is_Some _ t). apply list_elem_of_fmap.
    exists r. split; [auto|]. apply list_elem_of_filter. auto.
  - rewrite clean_weather_data_stages in H.
    destruct (impute_all df) as [df3|] eqn:H3; simpl in H; [|discriminate].
    destruct (apply_date_parser_Ok in_bounds (dropna df3))
      as (df5 & H5 & R5).
    rewrite H5 in H. simpl in H. injection H as <-.
    apply list_elem_of_filter in Hr as [_ Hr].
    apply list_elem_of_fmap in Hr as (x & -> & Hx).
    apply list_elem_of_fmap in Hx as (y & -> & Hy).
    apply list_elem_of_lookup_1 in Hy as [i Hi].
    destruct (Forall2_lookup_r _ _ _ _ _ R5 Hi) as (z & Hz & d & _ & ->).
    apply list_elem_of_lookup_2 in Hz. unfold dropna in Hz.
    apply list_elem_of_filter in Hz as [_ Hz]. simpl.
    assert (HL : Forall2 same_labels df df3).
    { unfold impute_all in H3.
      destruct (impute Temperature df) as [df1|] eqn:H1; simpl in H3;
        [|discriminate].
      destruct (impute Humidity df1) as [df2|] eqn:H2; simpl in H3;
        [|discriminate].
      eapply Forall2_same_labels_trans; [eapply impute_same_labels, H1|].
      eapply Forall2_same_labels_trans; eapply impute_same_labels;
        eassumption. }
    apply list_elem_of_lookup_1 in Hz as [j Hj].
    destruct (Forall2_lookup_r _ _ _ _ _ HL Hj) as (r0 & Hr0 & Hc & _).
    rewrite Hc. apply list_elem_of_fmap. exists r0.
    split; [reflexivity|]. eapply list_elem_of_lookup_2, Hr0.
Qed.

Lemma avg_temp_of_cleaned_table_witness :
  is_Some (mean (group_values Temperature "Lagos" unparsed_date_cleaned)).
Proof.
  refine (proj1 (avg_temp_of_cleaned_table ns_bounds unparsed_date_table
                   unparsed_date_cleaned "Lagos" _ eq_refl _)).
  vm_compute. left.
Defined.

Lemma sort_values_ascending_Permutation l :
  sort_values_ascending l ≡ₚ l.
Proof.
  unfold sort_values_ascending.
  rewrite (isort_Permutation _). apply non_nan_nan_Permutation.
Qed.

Lemma non_nan_all (l : list (string * option Qc)) :
  Forall (fun kv => is_Some kv.2) l -> nan l = [].
Proof.
  intros H. unfold nan. apply filter_none. intros x Hx E.
  rewrite list.Forall_forall in H. destruct (H x Hx) as [v Hv]. congruence.
Qed.

(** X20: the chart has one bar per city (its series is a rearrangement of
    the per-city means); when no mean is missing and no two cities have
    the same mean, reading the bars from the last to the first gives the
    descending ranking, so the report's entries are the last five bars. *)
Theorem chart_avg_temp_matches_report {D W F} (df : list (row D W F)) :
  chart_avg_temp df ≡ₚ groupby_mean (group_keys df) df /\
  (Forall (fun kv => is_Some kv.2) (groupby_mean (group_keys df) df) ->
   NoDup (snd <$> groupby_mean (group_keys df) df) ->
   avg_temp df = take 5 (reverse (chart_avg_temp df))).
Proof.
  split; [apply sort_values_ascending_Permutation|].
  intros Hsome Hnd. unfold avg_temp, chart_avg_temp.
  set (groups := groupby_mean (group_keys df) df) in *.
  f_equal. apply descending_unique.
  - rewrite reverse_Permutation, sort_values_ascending_Permutation.
    exact Hnd.
  - apply sort_values_descending_sorted.
  - unfold sort_values_ascending. rewrite (non_nan_all _ Hsome), app_nil_r.
    rewrite <- fmap_reverse. unfold descending.
    apply (StronglySorted_fmap _
             (flip (fun a b : string * Qc => Qc_leb a.2 b.2 = true))).
    + intros x y Hxy. unfold flip, Qc_leb in Hxy. simpl.
      apply Qle_bool_iff, Hxy.
    + apply Sorted_StronglySorted.
      * intros x y z Hxy Hyz. unfold flip, Qc_leb in *.
        rewrite Qle_bool_iff in *. eapply Qle_trans; eassumption.
      * apply Sorted_reverse, isort_Sorted, Qc_leb_total.
  - rewrite reverse_Permutation, sort_values_ascending_Permutation.
    apply sort_values_descending_Permutation.
Qed.

Lemma chart_avg_temp_matches_report_witness :
  avg_temp six_cities_table = take 5 (reverse (chart_avg_temp six_cities_table)).
Proof.
  refine (proj2 (chart_avg_temp_matches_report six_cities_table) _ _).
  - vm_compute. repeat constructor; eexists; reflexivity.
  - apply (bool_decide_unpack _). vm_compute. exact I.
Defined.

(** ** Strings without a digit *)








(** ** Where the numbers of the cleaned table come from *)





